(** * solid-test-app: cards on a pannable, zoomable canvas

    A shallow embedding of the three source files of the application:

    - [hooks/created-persisted-store.ts]: [getPersistedValue] and
      [createPersistentStore];
    - the zoomable App ([Zoom]): cards and a canvas transform, both kept in
      persistent stores, wheel zoom, background pan, card drag scaled by the
      canvas scale;
    - the plain App ([Plain]): cards only, persisted by an effect of its own
      and loaded by [getInitialCards].

    Conventions of the embedding.

    - A JavaScript [number] is an IEEE 754 binary64 value.  The handlers
      whose results depend on rounding ([handleWheel],
      [handleBackgroundMouseMove], the Card's [handleMouseMove] of the
      zoomable App) are embedded on binary64 in [Double], and what is said of
      their arithmetic is said there.  In [Zoom] and [Plain] a number is an
      exact rational ([Q]), numeric equality is [==] ([Qeq]); these modules
      carry what does not depend on rounding: the order of the scale and its
      limits, which cards change, what is written and when.
    - A value that comes out of [JSON.parse] is untyped in the source
      ([any]); it is a [JSValue] here.  Typed state (a [Card] list, the
      canvas position) is injected into [JSValue] where the source hands it
      to [JSON.stringify].
    - [JSON.parse] and [JSON.stringify] belong to the platform, not to the
      repository: they are parameters of the development (the class
      [JSON]).  A call that throws yields [Thrown].
    - Browser storage is a finite map from keys to strings; every
      [setItem] call is also recorded in a log, so that writes can be
      counted.
    - A Solid effect created by [createEffect] runs once when it is created
      and again, synchronously, after every store setter call that changed
      something the effect had read.
    - [createStore] throws on an initial value that is neither an object nor
      an array.  [Store.createPersistentStore] is the call for an initial
      value that [createStore] accepts; [Created] has the calls with
      [createStore] in them. *)

From Stdlib Require Import QArith Qabs Qpower Lqa Qfield Floats.
From stdpp Require Import gmap strings list pretty.

Set Warnings "-register-all,-inexact-float".

(** ** Outcomes of code that may throw *)

Inductive Completion (A : Type) : Type :=
| Normal (a : A)
| Thrown.
Arguments Normal {A} a.
Arguments Thrown {A}.

(** [try { body } catch { handler }] *)
Definition try_catch {A : Type} (body handler : Completion A) : Completion A :=
  match body with
  | Normal a => Normal a
  | Thrown => handler
  end.

(** ** JavaScript values *)

Inductive JSValue : Type :=
| JUndefined
| JNull
| JBoolean (b : bool)
| JNumber (n : Q)
| JString (s : string)
| JArray (items : list JSValue)
| JObject (props : list (string * JSValue)).

(** A string is truthy unless it is empty. *)
Definition truthy_string (s : string) : bool :=
  match s with
  | EmptyString => false
  | String _ _ => true
  end.

(** ToBoolean. *)
Definition truthy (v : JSValue) : bool :=
  match v with
  | JUndefined | JNull => false
  | JBoolean b => b
  | JNumber n => negb (Qeq_bool n 0)
  | JString s => truthy_string s
  | JArray _ | JObject _ => true
  end.

(** [a || b] *)
Definition js_or (a b : JSValue) : JSValue :=
  if truthy a then a else b.

(** ** Browser storage *)

Inductive StorageType : Type := session | local.

Record Browser : Type := {
  sessionStorage : gmap string string;
  localStorage : gmap string string;
  (** every [setItem] call so far, most recent first *)
  setItemCalls : list (StorageType * string * string)
}.

(** [storage.getItem(key)]: the string stored under the key, or [null]. *)
Definition getItem (storage : gmap string string) (key : string) : option string :=
  storage !! key.

Definition sessionStorage_setItem (key value : string) (b : Browser) : Browser :=
  {| sessionStorage := <[key := value]> (sessionStorage b);
     localStorage := localStorage b;
     setItemCalls := (session, key, value) :: setItemCalls b |}.

(** ** Cards and the canvas transform *)

Record Position : Type := { pos_x : Q; pos_y : Q }.

Record Card : Type := {
  card_id : string;
  card_position : Position;
  card_text : string
}.

(** [Partial<Omit<Card, "id">>]: each of [position] and [text] is present or
    absent. *)
Record CardPatch : Type := {
  patch_position : option Position;
  patch_text : option string
}.

Record CanvasPosition : Type := {
  canvas_x : Q;
  canvas_y : Q;
  canvas_scale : Q
}.

Record MouseEvent : Type := { clientX : Q; clientY : Q }.

Record WheelEvent : Type := {
  wheel_clientX : Q;
  wheel_clientY : Q;
  deltaY : Q
}.

(** The values as [JSON.stringify] sees them, properties in the order in
    which the source creates them. *)
Definition js_of_position (p : Position) : JSValue :=
  JObject [("x"%string, JNumber (pos_x p)); ("y"%string, JNumber (pos_y p))].

Definition js_of_card (c : Card) : JSValue :=
  JObject [("id"%string, JString (card_id c));
           ("text"%string, JString (card_text c));
           ("position"%string, js_of_position (card_position c))].

Definition js_of_cards (cards : list Card) : JSValue :=
  JArray (map js_of_card cards).

Definition js_of_canvas (p : CanvasPosition) : JSValue :=
  JObject [("x"%string, JNumber (canvas_x p));
           ("y"%string, JNumber (canvas_y p));
           ("scale"%string, JNumber (canvas_scale p))].

(** ** Solid store setters, as the two Apps use them *)

(** [Object.assign(currentCard, card)]: the properties present in the patch
    overwrite those of the card; [id] is not a property of a patch. *)
Definition Object_assign (currentCard : Card) (card : CardPatch) : Card :=
  {| card_id := card_id currentCard;
     card_position := default (card_position currentCard) (patch_position card);
     card_text := default (card_text currentCard) (patch_text card) |}.

(** [setCards(index, value)].  At an index below the length the element is
    replaced (Solid merges the properties of [value] into it, and [value]
    has all of them); at the length the array grows by one.  Both Apps call
    it at [cards.length] only; a larger index would leave holes, which a
    list cannot hold. *)
Definition setStore_at (index : nat) (value : Card) (cards : list Card) : list Card :=
  if decide (index < length cards)%nat then <[index := value]> cards
  else cards ++ [value].

(** [setCards(predicate, produce(recipe))]: the recipe runs on every element
    that satisfies the predicate. *)
Definition setStore_where (predicate : Card -> bool) (recipe : Card -> Card)
    (cards : list Card) : list Card :=
  map (fun card => if predicate card then recipe card else card) cards.

(** Whether [Object.assign] on the store's card writes a property that
    differs from the one it replaces: a [position] of a patch is a fresh
    object, a [text] is compared as a string. *)
Definition assign_notifies (currentCard : Card) (card : CardPatch) : bool :=
  match patch_position card with
  | Some _ => true
  | None =>
      match patch_text card with
      | Some t => negb (String.eqb t (card_text currentCard))
      | None => false
      end
  end.

Definition updateCard_notifies (id : string) (card : CardPatch) (cards : list Card) : bool :=
  existsb (fun c => String.eqb (card_id c) id && assign_notifies c card) cards.

(** ** utils *)

(** Modelled from the spec: [clamp] of [./utils] is not among the sources;
    the spec lists it as "numeric clamping", and the zoomable App calls it as
    [clamp(value, min, max)]: the value, limited to the interval from [min]
    to [max]. *)
Definition clamp (value min max : Q) : Q :=
  if Qlt_le_dec value min then min
  else if Qlt_le_dec max value then max
  else value.

(** ** The platform's JSON object *)

(** [JSON.parse] throws on a text that is not JSON, the empty text among
    them; [JSON.stringify] throws on a value it cannot serialise. *)
Class JSON : Type := {
  JSON_parse : string -> Completion JSValue;
  JSON_stringify : JSValue -> Completion string;
  JSON_parse_empty : JSON_parse EmptyString = Thrown
}.

(** ** hooks/created-persisted-store.ts *)

Module Store.
Section WithJSON.
Context `{JSON}.

Definition getPersistedValue (storage : gmap string string) (key : string)
    : Completion JSValue :=
  let persistedValue := getItem storage key in
  try_catch
    (match persistedValue with
     | Some text => if truthy_string text then JSON_parse text else Normal JUndefined
     | None => Normal JUndefined
     end)
    (Normal JUndefined).

Record Options : Type := {
  key : string;
  type : StorageType;
  name : option string
}.

(** The storage [createPersistentStore] selects for reading. *)
Definition selectedStorage (options : Options) (b : Browser) : gmap string string :=
  match type options with
  | session => sessionStorage b
  | local => localStorage b
  end.

(** The body of the effect: serialise the store, write it; a throw is caught
    and reported on the console, which leaves the browser as it was. *)
Definition persist (options : Options) (store0 : JSValue) (b : Browser) : Browser :=
  match JSON_stringify store0 with
  | Normal stringifiedValue => sessionStorage_setItem (key options) stringifiedValue b
  | Thrown => b
  end.

(** [createPersistentStore(object, options)]: the initial value of the store
    and the browser after the first run of the effect. *)
Definition createPersistentStore (object : JSValue) (options : Options) (b : Browser)
    : Completion (JSValue * Browser) :=
  let storage := selectedStorage options b in
  match getPersistedValue storage (key options) with
  | Normal persisted =>
      let initialValue := js_or persisted object in
      Normal (initialValue, persist options initialValue b)
  | Thrown => Thrown
  end.

End WithJSON.
End Store.

(** ** The zoomable App *)

Module Zoom.
Local Open Scope Q_scope.

Definition MAX_SCALE : Q := 5.
Definition MIN_SCALE : Q := 1 # 4.
Definition SCALING_FACTOR : Q := 1 # 100.

Inductive Direction : Type := up | down.

Definition cardsOptions : Store.Options :=
  {| Store.key := "cards"; Store.type := session; Store.name := None |}.

Definition positionOptions : Store.Options :=
  {| Store.key := "position"; Store.type := session; Store.name := None |}.

(** The default of the canvas store. *)
Definition defaultCanvasPosition : CanvasPosition :=
  {| canvas_x := 0; canvas_y := 0; canvas_scale := 1 |}.

(** [addCard], with the id that [generateId()] returned. *)
Definition addCard (generatedId : string) (cards : list Card) : list Card :=
  setStore_at (length cards)
    {| card_id := generatedId;
       card_text := "New Card";
       card_position := {| pos_x := 100; pos_y := 100 |} |}
    cards.

Definition updateCard (id : string) (card : CardPatch) (cards : list Card) : list Card :=
  setStore_where
    (fun card => String.eqb (card_id card) id)
    (fun currentCard => Object_assign currentCard card)
    cards.

Definition handleWheel (e : WheelEvent) (canvasPosition : CanvasPosition)
    : CanvasPosition :=
  let currentScale := canvas_scale canvasPosition in
  let direction := if Qlt_le_dec (deltaY e) 0 then up else down in
  let absoluteDiff := Qabs (deltaY e) * SCALING_FACTOR in
  let unclampedNewScale :=
    match direction with
    | up => currentScale + absoluteDiff
    | down => currentScale - absoluteDiff
    end in
  let newScale := clamp unclampedNewScale MIN_SCALE MAX_SCALE in
  let distanceX := wheel_clientX e - canvas_x canvasPosition in
  let distanceY := wheel_clientY e - canvas_y canvasPosition in
  let scaledDistanceX := (distanceX / currentScale) * newScale in
  let scaledDistanceY := (distanceY / currentScale) * newScale in
  let newX := wheel_clientX e - scaledDistanceX in
  let newY := wheel_clientY e - scaledDistanceY in
  {| canvas_scale := newScale; canvas_x := newX; canvas_y := newY |}.

Definition handleBackgroundMouseDown (e : MouseEvent) : option Position :=
  Some {| pos_x := clientX e; pos_y := clientY e |}.

(** The new [mouseDownPosition] and the new canvas position. *)
Definition handleBackgroundMouseMove (e : MouseEvent)
    (mouseDownPosition : option Position) (position : CanvasPosition)
    : option Position * CanvasPosition :=
  match mouseDownPosition with
  | None => (mouseDownPosition, position)
  | Some downPosition =>
      let deltaX := pos_x downPosition - clientX e in
      let deltaY := pos_y downPosition - clientY e in
      (Some {| pos_x := clientX e; pos_y := clientY e |},
       {| canvas_x := canvas_x position - deltaX;
          canvas_y := canvas_y position - deltaY;
          canvas_scale := canvas_scale position |})
  end.

Definition handleBackgroundMouseUp : option Position := None.

(** *** The Card component *)

Record CardProps : Type := {
  props_card : Card;
  props_scale : Q
}.

Record CardLocal : Type := {
  zIndex : Z;
  isReadonly : bool;
  prevMousePosition : option Position
}.

Definition handleMouseDown (e : MouseEvent) (l : CardLocal) : CardLocal :=
  {| zIndex := 2;
     isReadonly := isReadonly l;
     prevMousePosition := Some {| pos_x := clientX e; pos_y := clientY e |} |}.

(** The component's own state and the App's cards after the handler;
    [props.updateCard] is the App's [updateCard]. *)
Definition handleMouseMove (e : MouseEvent) (props : CardProps) (l : CardLocal)
    (cards : list Card) : CardLocal * list Card :=
  match prevMousePosition l with
  | None => (l, cards)
  | Some prev =>
      let deltaX := clientX e - pos_x prev in
      let deltaY := clientY e - pos_y prev in
      ({| zIndex := zIndex l;
          isReadonly := isReadonly l;
          prevMousePosition := Some {| pos_x := clientX e; pos_y := clientY e |} |},
       updateCard (card_id (props_card props))
         {| patch_position :=
              Some {| pos_x := pos_x (card_position (props_card props))
                               + deltaX / props_scale props;
                      pos_y := pos_y (card_position (props_card props))
                               + deltaY / props_scale props |};
            patch_text := None |}
         cards)
  end.

Definition handleMouseUp (l : CardLocal) : CardLocal :=
  {| zIndex := 1; isReadonly := isReadonly l; prevMousePosition := None |}.

Definition handleDoubleClick (l : CardLocal) : CardLocal :=
  {| zIndex := zIndex l; isReadonly := false;
     prevMousePosition := prevMousePosition l |}.

Definition handleBlur (l : CardLocal) : CardLocal :=
  {| zIndex := zIndex l; isReadonly := true;
     prevMousePosition := prevMousePosition l |}.

(** [value] is the text of the textarea, [e.target.value]. *)
Definition onInput (value : string) (props : CardProps) (cards : list Card) : list Card :=
  updateCard (card_id (props_card props))
    {| patch_position := None; patch_text := Some value |} cards.

(** *** The App with its two effects *)

(** Whether a recipe on the canvas store changed one of its numbers. *)
Definition canvas_notifies (before after : CanvasPosition) : bool :=
  negb (Qeq_bool (canvas_x before) (canvas_x after)
        && Qeq_bool (canvas_y before) (canvas_y after)
        && Qeq_bool (canvas_scale before) (canvas_scale after)).

Record World : Type := {
  w_cards : list Card;
  w_canvasPosition : CanvasPosition;
  w_mouseDownPosition : option Position;
  w_browser : Browser
}.

Inductive Action : Type :=
| AddCard (generatedId : string)
| UpdateCard (id : string) (card : CardPatch)
| Wheel (e : WheelEvent)
| BackgroundMouseDown (e : MouseEvent)
| BackgroundMouseMove (e : MouseEvent)
| BackgroundMouseUp.

Section WithJSON.
Context `{JSON}.

(** A setter call on the cards store, followed by the effect of that store
    when the call notified it. *)
Definition setCards (next : list Card) (notified : bool) (w : World) : World :=
  {| w_cards := next;
     w_canvasPosition := w_canvasPosition w;
     w_mouseDownPosition := w_mouseDownPosition w;
     w_browser :=
       if notified then Store.persist cardsOptions (js_of_cards next) (w_browser w)
       else w_browser w |}.

(** The same for the canvas store; the handler's own variable
    [mouseDownPosition] is updated along. *)
Definition setCanvasPosition (next : CanvasPosition)
    (mouseDownPosition : option Position) (w : World) : World :=
  {| w_cards := w_cards w;
     w_canvasPosition := next;
     w_mouseDownPosition := mouseDownPosition;
     w_browser :=
       if canvas_notifies (w_canvasPosition w) next
       then Store.persist positionOptions (js_of_canvas next) (w_browser w)
       else w_browser w |}.

Definition dispatch (a : Action) (w : World) : World :=
  match a with
  | AddCard generatedId =>
      setCards (addCard generatedId (w_cards w)) true w
  | UpdateCard id card =>
      setCards (updateCard id card (w_cards w))
        (updateCard_notifies id card (w_cards w)) w
  | Wheel e =>
      setCanvasPosition (handleWheel e (w_canvasPosition w)) (w_mouseDownPosition w) w
  | BackgroundMouseDown e =>
      {| w_cards := w_cards w;
         w_canvasPosition := w_canvasPosition w;
         w_mouseDownPosition := handleBackgroundMouseDown e;
         w_browser := w_browser w |}
  | BackgroundMouseMove e =>
      let '(mouseDownPosition, next) :=
        handleBackgroundMouseMove e (w_mouseDownPosition w) (w_canvasPosition w) in
      setCanvasPosition next mouseDownPosition w
  | BackgroundMouseUp =>
      {| w_cards := w_cards w;
         w_canvasPosition := w_canvasPosition w;
         w_mouseDownPosition := handleBackgroundMouseUp;
         w_browser := w_browser w |}
  end.

(** The actions of a burst, in order. *)
Definition run (actions : list Action) (w : World) : World :=
  foldl (fun w a => dispatch a w) w actions.

(** The store an action changes, if it changes one, with the value the
    store then holds. *)
Definition changed_store (a : Action) (w : World) : option (Store.Options * JSValue) :=
  match a with
  | AddCard generatedId =>
      Some (cardsOptions, js_of_cards (addCard generatedId (w_cards w)))
  | UpdateCard id card =>
      if updateCard_notifies id card (w_cards w)
      then Some (cardsOptions, js_of_cards (updateCard id card (w_cards w)))
      else None
  | Wheel e =>
      let next := handleWheel e (w_canvasPosition w) in
      if canvas_notifies (w_canvasPosition w) next
      then Some (positionOptions, js_of_canvas next)
      else None
  | BackgroundMouseMove e =>
      let next :=
        snd (handleBackgroundMouseMove e (w_mouseDownPosition w) (w_canvasPosition w)) in
      if canvas_notifies (w_canvasPosition w) next
      then Some (positionOptions, js_of_canvas next)
      else None
  | BackgroundMouseDown _ | BackgroundMouseUp => None
  end.

(** 1 for an action that changes a store whose new value [JSON.stringify]
    serialises, 0 for any other. *)
Definition serialised_change (a : Action) (w : World) : nat :=
  match changed_store a w with
  | Some (_, value) =>
      match JSON_stringify value with
      | Normal _ => 1
      | Thrown => 0
      end
  | None => 0
  end.

(** The number of such actions in a burst. *)
Fixpoint serialised_changes (actions : list Action) (w : World) : nat :=
  match actions with
  | [] => 0
  | a :: rest => serialised_change a w + serialised_changes rest (dispatch a w)
  end.

(** The number of [setItem] calls made while the burst ran. *)
Definition writes_during (actions : list Action) (w : World) : nat :=
  length (setItemCalls (w_browser (run actions w)))
  - length (setItemCalls (w_browser w)).

End WithJSON.
End Zoom.

(** ** The plain App *)

Module Plain.
Local Open Scope Q_scope.

Definition addCard (generatedId : string) (cards : list Card) : list Card :=
  setStore_at (length cards)
    {| card_id := generatedId;
       card_text := "New Card";
       card_position := {| pos_x := 100; pos_y := 100 |} |}
    cards.

Definition updateCard (id : string) (card : CardPatch) (cards : list Card) : list Card :=
  setStore_where
    (fun card => String.eqb (card_id card) id)
    (fun currentCard => Object_assign currentCard card)
    cards.

(** The Card component: its variable [prevMousePosition] and the App's cards
    after the handler. *)
Definition handleMouseMove (e : MouseEvent) (props_card : Card)
    (prevMousePosition : option Position) (cards : list Card)
    : option Position * list Card :=
  match prevMousePosition with
  | None => (prevMousePosition, cards)
  | Some prev =>
      let deltaX := clientX e - pos_x prev in
      let deltaY := clientY e - pos_y prev in
      (Some {| pos_x := clientX e; pos_y := clientY e |},
       updateCard (card_id props_card)
         {| patch_position :=
              Some {| pos_x := pos_x (card_position props_card) + deltaX;
                      pos_y := pos_y (card_position props_card) + deltaY |};
            patch_text := None |}
         cards)
  end.

Section WithJSON.
Context `{JSON}.

(** The body of the App's effect; nothing catches a throw of
    [JSON.stringify] here. *)
Definition persistCards (cards : list Card) (b : Browser) : Completion Browser :=
  match JSON_stringify (js_of_cards cards) with
  | Normal cardsString => Normal (sessionStorage_setItem "cards" cardsString b)
  | Thrown => Thrown
  end.

Definition getInitialCards (storage : gmap string string) : Completion JSValue :=
  let storageCards := getItem storage "cards" in
  try_catch
    (match storageCards with
     | Some text => if truthy_string text then JSON_parse text else Normal (JArray [])
     | None => Normal (JArray [])
     end)
    (Normal (JArray [])).

Record World : Type := {
  w_cards : list Card;
  w_browser : Browser
}.

Inductive Action : Type :=
| AddCard (generatedId : string)
| UpdateCard (id : string) (card : CardPatch).

(** A setter call followed by the effect when the call notified it; an
    effect that throws has written nothing. *)
Definition setCards (next : list Card) (notified : bool) (w : World) : World :=
  {| w_cards := next;
     w_browser :=
       if notified then
         match persistCards next (w_browser w) with
         | Normal b => b
         | Thrown => w_browser w
         end
       else w_browser w |}.

Definition dispatch (a : Action) (w : World) : World :=
  match a with
  | AddCard generatedId =>
      setCards (addCard generatedId (w_cards w)) true w
  | UpdateCard id card =>
      setCards (updateCard id card (w_cards w))
        (updateCard_notifies id card (w_cards w)) w
  end.

Definition run (actions : list Action) (w : World) : World :=
  foldl (fun w a => dispatch a w) w actions.

(** The value of the cards store after an action that changes it. *)
Definition changed_store (a : Action) (w : World) : option JSValue :=
  match a with
  | AddCard generatedId => Some (js_of_cards (addCard generatedId (w_cards w)))
  | UpdateCard id card =>
      if updateCard_notifies id card (w_cards w)
      then Some (js_of_cards (updateCard id card (w_cards w)))
      else None
  end.

Definition serialised_change (a : Action) (w : World) : nat :=
  match changed_store a w with
  | Some value =>
      match JSON_stringify value with
      | Normal _ => 1
      | Thrown => 0
      end
  | None => 0
  end.

Fixpoint serialised_changes (actions : list Action) (w : World) : nat :=
  match actions with
  | [] => 0
  | a :: rest => serialised_change a w + serialised_changes rest (dispatch a w)
  end.

Definition writes_during (actions : list Action) (w : World) : nat :=
  length (setItemCalls (w_browser (run actions w)))
  - length (setItemCalls (w_browser w)).

End WithJSON.
End Plain.

(** ** A platform and inputs for the examples *)

Module Sample.
Local Open Scope Q_scope.

Definition quote : string := String (Ascii.ascii_of_nat 34) EmptyString.

(** The number of decimal places of a fraction with denominator [den]: the
    least [k], searched from [k] on, such that [den] divides [10 ^ k]. *)
Fixpoint decimal_places (fuel k : nat) (den : Z) : option nat :=
  if (10 ^ Z.of_nat k mod den =? 0)%Z then Some k
  else
    match fuel with
    | O => None
    | S fuel' => decimal_places fuel' (S k) den
    end.

Definition pad_zeros (k : nat) (digits : string) : string :=
  String.concat EmptyString (replicate (k - String.length digits) "0"%string) +:+ digits.

(** A number in decimal notation.  A rational without a finite decimal
    expansion is not a double; the sample platform throws on it. *)
Definition print_number (n : Q) : Completion string :=
  let num := Qnum (Qred n) in
  let den := Z.pos (Qden (Qred n)) in
  match decimal_places (Pos.size_nat (Qden (Qred n))) 0 den with
  | None => Thrown
  | Some k =>
      let scaled := (Z.abs num * 10 ^ Z.of_nat k / den)%Z in
      let whole := (scaled / 10 ^ Z.of_nat k)%Z in
      let fraction := (scaled mod 10 ^ Z.of_nat k)%Z in
      Normal ((if (num <? 0)%Z then "-" else "")
              +:+ pretty whole
              +:+ match k with
                  | O => ""
                  | S _ => "." +:+ pad_zeros k (pretty fraction)
                  end)%string
  end.

(** A string between quotes; the sample platform throws on a string that
    needs an escape. *)
Definition print_string (s : string) : Completion string :=
  if forallb
       (fun c => let code := Ascii.nat_of_ascii c in
                 (32 <=? code)%nat && negb (code =? 34)%nat && negb (code =? 92)%nat)
       (String.list_ascii_of_string s)
  then Normal (quote +:+ s +:+ quote)
  else Thrown.

(** The JSON text of a value.  [undefined] has none; the sample platform
    throws on it wherever it stands. *)
Fixpoint print (v : JSValue) : Completion string :=
  match v with
  | JUndefined => Thrown
  | JNull => Normal "null"%string
  | JBoolean b => Normal (if b then "true" else "false")%string
  | JNumber n => print_number n
  | JString s => print_string s
  | JArray items =>
      match
        (fix elements (l : list JSValue) : Completion (list string) :=
           match l with
           | [] => Normal []
           | item :: rest =>
               match print item, elements rest with
               | Normal a, Normal b => Normal (a :: b)
               | _, _ => Thrown
               end
           end) items
      with
      | Normal parts => Normal ("[" +:+ String.concat "," parts +:+ "]")%string
      | Thrown => Thrown
      end
  | JObject props =>
      match
        (fix members (l : list (string * JSValue)) : Completion (list string) :=
           match l with
           | [] => Normal []
           | (k, item) :: rest =>
               match print_string k, print item, members rest with
               | Normal a, Normal b, Normal c => Normal ((a +:+ ":" +:+ b)%string :: c)
               | _, _, _ => Thrown
               end
           end) props
      with
      | Normal parts => Normal ("{" +:+ String.concat "," parts +:+ "}")%string
      | Thrown => Thrown
      end
  end.

Definition card_a : Card :=
  {| card_id := "a"; card_text := "New Card";
     card_position := {| pos_x := 100; pos_y := 100 |} |}.

Definition card_b : Card :=
  {| card_id := "b"; card_text := "two";
     card_position := {| pos_x := -5 # 2; pos_y := 40 |} |}.

Definition cards : list Card := [card_a; card_b].

Definition canvas : CanvasPosition :=
  {| canvas_x := 40; canvas_y := -10; canvas_scale := 2 |}.

Definition wheel : WheelEvent :=
  {| wheel_clientX := 300; wheel_clientY := 200; deltaY := -50 |}.

(** The documents the sample [parse] knows. *)
Definition documents : list JSValue :=
  [JArray []; JObject []; js_of_cards cards; js_of_canvas canvas;
   js_of_canvas Zoom.defaultCanvasPosition].

(** [parse] recognises the texts of [documents] and throws on any other
    text. *)
Definition parse (text : string) : Completion JSValue :=
  match text with
  | EmptyString => Thrown
  | String _ _ =>
      match
        List.find
          (fun document =>
             match print document with
             | Normal printed => String.eqb printed text
             | Thrown => false
             end)
          documents
      with
      | Some document => Normal document
      | None => Thrown
      end
  end.

Definition platform : JSON :=
  {| JSON_parse := parse; JSON_stringify := print; JSON_parse_empty := eq_refl |}.

Definition emptyBrowser : Browser :=
  {| sessionStorage := ∅; localStorage := ∅; setItemCalls := [] |}.

(** The text of [cards] on the sample platform. *)
Definition cards_text : string :=
  match print (js_of_cards cards) with
  | Normal text => text
  | Thrown => EmptyString
  end.

(** A store of type ["local"]. *)
Definition localOptions : Store.Options :=
  {| Store.key := "position"; Store.type := local; Store.name := None |}.

(** A browser whose session storage holds a text that is not JSON under
    ["position"], and nothing under ["cards"]. *)
Definition brokenBrowser : Browser :=
  {| sessionStorage := {[ "position"%string := "{oops"%string ]};
     localStorage := ∅;
     setItemCalls := [] |}.

Definition zoomWorld : Zoom.World :=
  {| Zoom.w_cards := [];
     Zoom.w_canvasPosition := Zoom.defaultCanvasPosition;
     Zoom.w_mouseDownPosition := None;
     Zoom.w_browser := emptyBrowser |}.

Definition plainWorld : Plain.World :=
  {| Plain.w_cards := []; Plain.w_browser := emptyBrowser |}.

Definition moved : CardPatch :=
  {| patch_position := Some {| pos_x := 110; pos_y := 95 |}; patch_text := None |}.

Definition retyped : CardPatch :=
  {| patch_position := None; patch_text := Some "hello"%string |}.

(** A card is added, dragged and edited. *)
Definition cardBurst : list Zoom.Action :=
  [Zoom.AddCard "a"; Zoom.UpdateCard "a" moved; Zoom.UpdateCard "a" retyped].

(** Two wheel events, then a pan of the background by two mouse moves. *)
Definition transformBurst : list Zoom.Action :=
  [Zoom.Wheel wheel; Zoom.Wheel wheel;
   Zoom.BackgroundMouseDown {| clientX := 10; clientY := 10 |};
   Zoom.BackgroundMouseMove {| clientX := 12; clientY := 15 |};
   Zoom.BackgroundMouseMove {| clientX := 20; clientY := 15 |}].

Definition plainBurst : list Plain.Action :=
  [Plain.AddCard "a"; Plain.UpdateCard "a" moved].

(** The Card component of [card_a] in mid-drag, at scale 2. *)
Definition dragProps : Zoom.CardProps :=
  {| Zoom.props_card := card_a; Zoom.props_scale := 2 |}.

Definition dragLocal : Zoom.CardLocal :=
  {| Zoom.zIndex := 2; Zoom.isReadonly := true;
     Zoom.prevMousePosition := Some {| pos_x := 10; pos_y := 10 |} |}.

Definition dragEvent : MouseEvent := {| clientX := 30; clientY := 50 |}.

End Sample.

(** ** The Card component on the card at an index of the store *)

Module Mounted.
Local Open Scope Q_scope.

(** Both Apps render one Card for every element of the cards store.
    [props.card] of the component at [index] is that element, read from the
    store when a handler runs; in the zoomable App [props.scale] is the scale
    of the canvas.  A component whose element is gone handles nothing. *)
Definition zoomMouseMove (index : nat) (scale : Q) (e : MouseEvent)
    (st : Zoom.CardLocal * list Card) : Zoom.CardLocal * list Card :=
  match snd st !! index with
  | Some card =>
      Zoom.handleMouseMove e
        {| Zoom.props_card := card; Zoom.props_scale := scale |} (fst st) (snd st)
  | None => st
  end.

Definition zoomInput (index : nat) (scale : Q) (value : string) (cards : list Card)
    : list Card :=
  match cards !! index with
  | Some card =>
      Zoom.onInput value {| Zoom.props_card := card; Zoom.props_scale := scale |} cards
  | None => cards
  end.


Definition plainMouseUp : Z * option Position := (1%Z, None).

Definition plainMouseMove (index : nat) (e : MouseEvent)
    (st : option Position * list Card) : option Position * list Card :=
  match snd st !! index with
  | Some card => Plain.handleMouseMove e card (fst st) (snd st)
  | None => st
  end.


End Mounted.

(** ** A second platform for the examples *)

Module Fixtures.
Local Open Scope Q_scope.

(** The documents this platform's [parse] knows: falsy values among them. *)
Definition documents : list JSValue :=
  [JNull; JBoolean false; JNumber 0; JArray []; js_of_cards Sample.cards;
   js_of_canvas Sample.canvas].

Definition parse (text : string) : Completion JSValue :=
  match text with
  | EmptyString => Thrown
  | String _ _ =>
      match
        List.find
          (fun document =>
             match Sample.print document with
             | Normal printed => String.eqb printed text
             | Thrown => false
             end)
          documents
      with
      | Some document => Normal document
      | None => Thrown
      end
  end.

Definition platform : JSON :=
  {| JSON_parse := parse; JSON_stringify := Sample.print; JSON_parse_empty := eq_refl |}.

(** Session storage holds the text of [null] under ["cards"]. *)
Definition nullBrowser : Browser :=
  {| sessionStorage := {[ "cards"%string := "null"%string ]};
     localStorage := ∅;
     setItemCalls := [] |}.

(** The text of a value on the sample platform. *)
Definition text_of (v : JSValue) : string :=
  match Sample.print v with
  | Normal text => text
  | Thrown => EmptyString
  end.

(** Two cards with the same id. *)
Definition twin : Card :=
  {| card_id := "a"; card_text := "twin";
     card_position := {| pos_x := 7; pos_y := 8 |} |}.

Definition twins : list Card := [Sample.card_a; Sample.card_b; twin].

Definition down : MouseEvent := {| clientX := 10; clientY := 10 |}.


(** A world whose session storage holds the text of its cards. *)
Definition syncedWorld : Zoom.World :=
  {| Zoom.w_cards := Sample.cards;
     Zoom.w_canvasPosition := Sample.canvas;
     Zoom.w_mouseDownPosition := None;
     Zoom.w_browser :=
       {| sessionStorage := {[ "cards"%string := Sample.cards_text ]};
          localStorage := ∅;
          setItemCalls := [] |} |}.

End Fixtures.

(** ** Solid's createStore *)

Definition is_object (v : JSValue) : bool :=
  match v with
  | JArray _ | JObject _ => true
  | _ => false
  end.

(** [createStore(store)] of solid-js/store: a falsy argument is replaced by
    an empty object; an argument that is neither an object nor an array
    makes the call throw. *)
Definition createStore (store : JSValue) : Completion JSValue :=
  let unwrappedStore := js_or store (JObject []) in
  if is_object unwrappedStore then Normal unwrappedStore else Thrown.

(** ** The calls that create the stores, [createStore] included *)

Module Created.
Section WithJSON.
Context `{JSON}.

(** [createPersistentStore(object, options)] in full: the storage is read,
    [createStore] is called on the initial value, the effect is created and
    runs.  When [createStore] throws no effect exists and nothing is
    written. *)
Definition createPersistentStore (object : JSValue) (options : Store.Options)
    (b : Browser) : Completion (JSValue * Browser) :=
  let storage := Store.selectedStorage options b in
  match Store.getPersistedValue storage (Store.key options) with
  | Normal persisted =>
      let initialValue := js_or persisted object in
      match createStore initialValue with
      | Normal store0 => Normal (store0, Store.persist options store0 b)
      | Thrown => Thrown
      end
  | Thrown => Thrown
  end.

(** The plain App: [createStore(getInitialCards(sessionStorage))]. *)
Definition initialCards (storage : gmap string string) : Completion JSValue :=
  match Plain.getInitialCards storage with
  | Normal initialCards => createStore initialCards
  | Thrown => Thrown
  end.

End WithJSON.
End Created.

(** ** The arithmetic of the handlers on binary64 *)

(** The handlers of the zoomable App whose results depend on rounding, with
    a JavaScript [number] as what it is, an IEEE 754 binary64 value
    ([float]); the literals denote the nearest binary64 value, as they do in
    the source. *)
Module Double.

Record Position : Type := { pos_x : float; pos_y : float }.

Record Card : Type := {
  card_id : string;
  card_position : Position;
  card_text : string
}.

Record CardPatch : Type := {
  patch_position : option Position;
  patch_text : option string
}.

Record CanvasPosition : Type := {
  canvas_x : float;
  canvas_y : float;
  canvas_scale : float
}.

Record MouseEvent : Type := { clientX : float; clientY : float }.

Record WheelEvent : Type := {
  wheel_clientX : float;
  wheel_clientY : float;
  deltaY : float
}.

Definition MAX_SCALE : float := 5%float.
Definition MIN_SCALE : float := 0.25%float.
Definition SCALING_FACTOR : float := 0.01%float.

(** Modelled from the spec: [clamp] of [./utils] is not among the sources;
    the spec lists it as "numeric clamping": the value, limited to the
    interval from [min] to [max]. *)
Definition clamp (value min max : float) : float :=
  if (value <? min)%float then min
  else if (max <? value)%float then max
  else value.

Definition handleWheel (e : WheelEvent) (canvasPosition : CanvasPosition)
    : CanvasPosition :=
  let currentScale := canvas_scale canvasPosition in
  let direction := if (deltaY e <? 0)%float then Zoom.up else Zoom.down in
  let absoluteDiff := (abs (deltaY e) * SCALING_FACTOR)%float in
  let unclampedNewScale :=
    match direction with
    | Zoom.up => (currentScale + absoluteDiff)%float
    | Zoom.down => (currentScale - absoluteDiff)%float
    end in
  let newScale := clamp unclampedNewScale MIN_SCALE MAX_SCALE in
  let distanceX := (wheel_clientX e - canvas_x canvasPosition)%float in
  let distanceY := (wheel_clientY e - canvas_y canvasPosition)%float in
  let scaledDistanceX := ((distanceX / currentScale) * newScale)%float in
  let scaledDistanceY := ((distanceY / currentScale) * newScale)%float in
  let newX := (wheel_clientX e - scaledDistanceX)%float in
  let newY := (wheel_clientY e - scaledDistanceY)%float in
  {| canvas_scale := newScale; canvas_x := newX; canvas_y := newY |}.

(** The new [mouseDownPosition] and the new canvas position. *)
Definition handleBackgroundMouseMove (e : MouseEvent)
    (mouseDownPosition : option Position) (position : CanvasPosition)
    : option Position * CanvasPosition :=
  match mouseDownPosition with
  | None => (mouseDownPosition, position)
  | Some downPosition =>
      let deltaX := (pos_x downPosition - clientX e)%float in
      let deltaY := (pos_y downPosition - clientY e)%float in
      (Some {| pos_x := clientX e; pos_y := clientY e |},
       {| canvas_x := (canvas_x position - deltaX)%float;
          canvas_y := (canvas_y position - deltaY)%float;
          canvas_scale := canvas_scale position |})
  end.

Definition Object_assign (currentCard : Card) (card : CardPatch) : Card :=
  {| card_id := card_id currentCard;
     card_position := default (card_position currentCard) (patch_position card);
     card_text := default (card_text currentCard) (patch_text card) |}.

(** [setCards(card => card.id === id, produce(Object.assign))]. *)
Definition updateCard (id : string) (card : CardPatch) (cards : list Card) : list Card :=
  map (fun currentCard =>
         if String.eqb (card_id currentCard) id
         then Object_assign currentCard card
         else currentCard)
    cards.

(** The Card component of the zoomable App: its variable [prevMousePosition]
    and the App's cards after the handler. *)
Definition handleMouseMove (e : MouseEvent) (props_card : Card) (props_scale : float)
    (prevMousePosition : option Position) (cards : list Card)
    : option Position * list Card :=
  match prevMousePosition with
  | None => (prevMousePosition, cards)
  | Some prev =>
      let deltaX := (clientX e - pos_x prev)%float in
      let deltaY := (clientY e - pos_y prev)%float in
      (Some {| pos_x := clientX e; pos_y := clientY e |},
       updateCard (card_id props_card)
         {| patch_position :=
              Some {| pos_x := (pos_x (card_position props_card)
                                + deltaX / props_scale)%float;
                      pos_y := (pos_y (card_position props_card)
                                + deltaY / props_scale)%float |};
            patch_text := None |}
         cards)
  end.

(** *** The numbers the values stand for *)

(** Neither NaN nor an infinity. *)
Definition finite (f : float) : bool :=
  match Prim2SF f with
  | S754_zero _ | S754_finite _ _ _ => true
  | S754_infinity _ | S754_nan => false
  end.

(** The rational a finite value is: sign, mantissa, power of two. *)
Definition value (f : float) : Q :=
  match Prim2SF f with
  | S754_finite s m e =>
      ((if s then -1 else 1) * inject_Z (Z.pos m) * Qpower 2 e)%Q
  | _ => 0%Q
  end.









(** *** Cards as [JSON.stringify] sees them *)

(** [JSON.stringify] serialises a number that is not finite as [null]. *)
Definition js_of_number (n : float) : JSValue :=
  if finite n then JNumber (value n) else JNull.

Definition js_of_position (p : Position) : JSValue :=
  JObject [("x"%string, js_of_number (pos_x p)); ("y"%string, js_of_number (pos_y p))].

Definition js_of_card (c : Card) : JSValue :=
  JObject [("id"%string, JString (card_id c));
           ("text"%string, JString (card_text c));
           ("position"%string, js_of_position (card_position c))].

Definition js_of_cards (cards : list Card) : JSValue :=
  JArray (map js_of_card cards).

(** *** Inputs for the examples *)

Definition canvas : CanvasPosition :=
  {| canvas_x := 40%float; canvas_y := (-10)%float; canvas_scale := 2%float |}.



Definition card_a : Card :=
  {| card_id := "a"; card_text := "New Card";
     card_position := {| pos_x := 100%float; pos_y := 100%float |} |}.

Definition prev : Position := {| pos_x := 10%float; pos_y := 10%float |}.






End Double.

(** ** A platform that parses *)

(** A parser for the JSON texts [Sample.print] writes and for JSON texts
    like them: the literals, numbers with an integer part and an optional
    fraction (no exponent), strings without escapes, arrays, objects and
    white space.  It throws on anything else. *)
Module Json.

Definition quote_char : Ascii.ascii := Ascii.ascii_of_nat 34.

Definition is_space (c : Ascii.ascii) : bool :=
  let code := Ascii.nat_of_ascii c in
  (code =? 32)%nat || (code =? 10)%nat || (code =? 13)%nat || (code =? 9)%nat.

Fixpoint skip_spaces (input : list Ascii.ascii) : list Ascii.ascii :=
  match input with
  | c :: rest => if is_space c then skip_spaces rest else input
  | [] => []
  end.

Definition digit_of (c : Ascii.ascii) : option Z :=
  let code := Ascii.nat_of_ascii c in
  if (48 <=? code)%nat && (code <=? 57)%nat then Some (Z.of_nat code - 48)%Z else None.

(** The digits at the front of the input, read onto [acc]; their number. *)
Fixpoint digits (input : list Ascii.ascii) (acc : Z) (count : nat) : Z * nat * list Ascii.ascii :=
  match input with
  | c :: rest =>
      match digit_of c with
      | Some d => digits rest (acc * 10 + d)%Z (S count)
      | None => (acc, count, input)
      end
  | [] => (acc, count, [])
  end.

Definition leading_zero (input : list Ascii.ascii) : bool :=
  match input with
  | c :: d :: _ =>
      (Ascii.nat_of_ascii c =? 48)%nat
      && match digit_of d with Some _ => true | None => false end
  | _ => false
  end.

Definition parse_unsigned (input : list Ascii.ascii) : option (Q * list Ascii.ascii) :=
  if leading_zero input then None
  else
    let '(whole, count, rest) := digits input 0%Z 0%nat in
    match count with
    | O => None
    | S _ =>
        match rest with
        | c :: rest' =>
            if (Ascii.nat_of_ascii c =? 46)%nat then
              let '(scaled, places, rest'') := digits rest' whole 0%nat in
              match places with
              | O => None
              | S _ =>
                  Some (Qred (scaled # Z.to_pos (10 ^ Z.of_nat places)), rest'')
              end
            else Some (inject_Z whole, rest)
        | [] => Some (inject_Z whole, rest)
        end
    end.

Definition parse_number (input : list Ascii.ascii) : option (Q * list Ascii.ascii) :=
  match input with
  | c :: rest =>
      if (Ascii.nat_of_ascii c =? 45)%nat then
        match parse_unsigned rest with
        | Some (q, rest') => Some (Qred (- q), rest')
        | None => None
        end
      else parse_unsigned input
  | [] => None
  end.

(** The characters up to the closing quote, after the opening one. *)
Fixpoint parse_characters (input : list Ascii.ascii) : option (string * list Ascii.ascii) :=
  match input with
  | c :: rest =>
      let code := Ascii.nat_of_ascii c in
      if (code =? 34)%nat then Some (EmptyString, rest)
      else if (code =? 92)%nat || (code <? 32)%nat then None
      else
        match parse_characters rest with
        | Some (s, rest') => Some (String c s, rest')
        | None => None
        end
  | [] => None
  end.

Definition literal (word : string) (input : list Ascii.ascii) : option (list Ascii.ascii) :=
  let w := String.list_ascii_of_string word in
  if String.eqb (String.string_of_list_ascii (take (length w) input)) word
  then Some (drop (length w) input)
  else None.

Fixpoint parse_value (fuel : nat) (input : list Ascii.ascii) : option (JSValue * list Ascii.ascii) :=
  match fuel with
  | O => None
  | S fuel' =>
      match skip_spaces input with
      | [] => None
      | c :: rest =>
          let code := Ascii.nat_of_ascii c in
          if (code =? 34)%nat then
            match parse_characters rest with
            | Some (s, rest') => Some (JString s, rest')
            | None => None
            end
          else if (code =? 91)%nat then
            match skip_spaces rest with
            | d :: rest' =>
                if (Ascii.nat_of_ascii d =? 93)%nat then Some (JArray [], rest')
                else parse_elements fuel' rest
            | [] => None
            end
          else if (code =? 123)%nat then
            match skip_spaces rest with
            | d :: rest' =>
                if (Ascii.nat_of_ascii d =? 125)%nat then Some (JObject [], rest')
                else parse_members fuel' rest
            | [] => None
            end
          else if (code =? 110)%nat then
            match literal "null" (c :: rest) with
            | Some rest' => Some (JNull, rest')
            | None => None
            end
          else if (code =? 116)%nat then
            match literal "true" (c :: rest) with
            | Some rest' => Some (JBoolean true, rest')
            | None => None
            end
          else if (code =? 102)%nat then
            match literal "false" (c :: rest) with
            | Some rest' => Some (JBoolean false, rest')
            | None => None
            end
          else
            match parse_number (c :: rest) with
            | Some (q, rest') => Some (JNumber q, rest')
            | None => None
            end
      end
  end
with parse_elements (fuel : nat) (input : list Ascii.ascii) : option (JSValue * list Ascii.ascii) :=
  match fuel with
  | O => None
  | S fuel' =>
      match parse_value fuel' input with
      | Some (item, rest) =>
          match skip_spaces rest with
          | c :: rest' =>
              let code := Ascii.nat_of_ascii c in
              if (code =? 93)%nat then Some (JArray [item], rest')
              else if (code =? 44)%nat then
                match parse_elements fuel' rest' with
                | Some (JArray items, rest'') => Some (JArray (item :: items), rest'')
                | _ => None
                end
              else None
          | [] => None
          end
      | None => None
      end
  end
with parse_members (fuel : nat) (input : list Ascii.ascii) : option (JSValue * list Ascii.ascii) :=
  match fuel with
  | O => None
  | S fuel' =>
      match skip_spaces input with
      | q :: rest0 =>
          if (Ascii.nat_of_ascii q =? 34)%nat then
            match parse_characters rest0 with
            | Some (key, rest1) =>
                match skip_spaces rest1 with
                | colon :: rest2 =>
                    if (Ascii.nat_of_ascii colon =? 58)%nat then
                      match parse_value fuel' rest2 with
                      | Some (item, rest3) =>
                          match skip_spaces rest3 with
                          | c :: rest4 =>
                              let code := Ascii.nat_of_ascii c in
                              if (code =? 125)%nat
                              then Some (JObject [(key, item)], rest4)
                              else if (code =? 44)%nat then
                                match parse_members fuel' rest4 with
                                | Some (JObject props, rest5) =>
                                    Some (JObject ((key, item) :: props), rest5)
                                | _ => None
                                end
                              else None
                          | [] => None
                          end
                      | None => None
                      end
                    else None
                | [] => None
                end
            | None => None
            end
          else None
      | [] => None
      end
  end.

Definition parse (text : string) : Completion JSValue :=
  match text with
  | EmptyString => Thrown
  | String _ _ =>
      match parse_value (2 * String.length text + 2)
              (String.list_ascii_of_string text) with
      | Some (value, rest) =>
          match skip_spaces rest with
          | [] => Normal value
          | _ :: _ => Thrown
          end
      | None => Thrown
      end
  end.

Definition platform : JSON :=
  {| JSON_parse := parse; JSON_stringify := Sample.print; JSON_parse_empty := eq_refl |}.

(** Session storage holds the text 5 under ["cards"]. *)
Definition fiveBrowser : Browser :=
  {| sessionStorage := {[ "cards"%string := "5"%string ]};
     localStorage := ∅;
     setItemCalls := [] |}.

End Json.

(** * Properties *)

(** ** Arithmetic of the canvas *)

Section CanvasArithmetic.
Local Open Scope Q_scope.

Lemma clamp_range (value min max : Q) :
  min <= max -> min <= clamp value min max /\ clamp value min max <= max.
Proof.
  intros Hmm. unfold clamp.
  destruct (Qlt_le_dec value min) as [Hlo | Hlo].
  - split; [apply Qle_refl | exact Hmm].
  - destruct (Qlt_le_dec max value) as [Hhi | Hhi].
    + split; [exact Hmm | apply Qle_refl].
    + split; assumption.
Qed.

Lemma limits_ordered : Zoom.MIN_SCALE <= Zoom.MAX_SCALE.
Proof. unfold Zoom.MIN_SCALE, Zoom.MAX_SCALE. lra. Qed.

Lemma handleWheel_scale (e : WheelEvent) (p : CanvasPosition) :
  exists unclamped,
    canvas_scale (Zoom.handleWheel e p)
    = clamp unclamped Zoom.MIN_SCALE Zoom.MAX_SCALE.
Proof. unfold Zoom.handleWheel. simpl. eexists. reflexivity. Qed.

Lemma handleWheel_scale_limits (e : WheelEvent) (p : CanvasPosition) :
  Zoom.MIN_SCALE <= canvas_scale (Zoom.handleWheel e p)
  /\ canvas_scale (Zoom.handleWheel e p) <= Zoom.MAX_SCALE.
Proof.
  destruct (handleWheel_scale e p) as [unclamped ->].
  apply clamp_range. exact limits_ordered.
Qed.


End CanvasArithmetic.

(** ** The card list *)

Section CardList.
Local Open Scope Q_scope.

Lemma setStore_where_lookup (predicate : Card -> bool) (recipe : Card -> Card)
    (cards : list Card) (i : nat) :
  setStore_where predicate recipe cards !! i
  = (fun card => if predicate card then recipe card else card) <$> cards !! i.
Proof. unfold setStore_where. apply list_lookup_fmap. Qed.

Lemma updateCard_lookup (id : string) (patch : CardPatch) (cards : list Card)
    (i : nat) (card : Card) :
  cards !! i = Some card ->
  Zoom.updateCard id patch cards !! i
  = Some (if String.eqb (card_id card) id then Object_assign card patch else card).
Proof.
  intros Hi. unfold Zoom.updateCard. rewrite setStore_where_lookup, Hi. reflexivity.
Qed.

(** C10.  [updateCard(id, patch)], in either App, keeps the list's length and
    order, leaves every card with another id as it is, and leaves the id of
    every card unchanged: a matched card can differ in its position and its
    text only. *)
Theorem updateCard_frame (id : string) (patch : CardPatch) (cards : list Card) :
  let unchanged_outside (before after : Card) :=
    card_id after = card_id before
    /\ (card_id before <> id -> after = before)
    /\ (card_id before = id ->
        card_position after = default (card_position before) (patch_position patch)
        /\ card_text after = default (card_text before) (patch_text patch)) in
  Forall2 unchanged_outside cards (Zoom.updateCard id patch cards)
  /\ Forall2 unchanged_outside cards (Plain.updateCard id patch cards).
Proof.
  intros unchanged_outside.
  assert (Hmap : Forall2 unchanged_outside cards
                   (setStore_where (fun card => String.eqb (card_id card) id)
                      (fun currentCard => Object_assign currentCard patch) cards)).
  { induction cards as [| card rest IH]; cbn.
    - constructor.
    - constructor; [| exact IH].
      unfold unchanged_outside.
      destruct (String.eqb_spec (card_id card) id) as [Heq | Hne]; cbn.
      + split; [reflexivity |]. split; [intros Hne; contradiction |].
        intros _. split; reflexivity.
      + split; [reflexivity |]. split; [reflexivity |].
        intros Heq. contradiction. }
  split; exact Hmap.
Qed.

(** C8.  The two Apps agree on the card list: with the same list, the same
    generated id and the same arguments, [addCard] gives the same list in
    both, and so does [updateCard]. *)
Theorem variants_agree_on_cards
    (generatedId id : string) (patch : CardPatch) (cards : list Card) :
  Zoom.addCard generatedId cards = Plain.addCard generatedId cards
  /\ Zoom.updateCard id patch cards = Plain.updateCard id patch cards.
Proof. split; reflexivity. Qed.

End CardList.

(** ** Loading and persisting *)

Section Persistence.
Context `{JSON}.

Lemma getPersistedValue_absent (storage : gmap string string) (key : string) :
  getItem storage key = None ->
  Store.getPersistedValue storage key = Normal JUndefined.
Proof. intros Hk. unfold Store.getPersistedValue. rewrite Hk. reflexivity. Qed.

Lemma getPersistedValue_invalid (storage : gmap string string) (key text : string) :
  getItem storage key = Some text ->
  JSON_parse text = Thrown ->
  Store.getPersistedValue storage key = Normal JUndefined.
Proof.
  intros Hk Hp. unfold Store.getPersistedValue. rewrite Hk.
  destruct (truthy_string text); [rewrite Hp |]; reflexivity.
Qed.

Lemma parsed_text_truthy (text : string) (value : JSValue) :
  JSON_parse text = Normal value -> truthy_string text = true.
Proof.
  destruct text as [| c rest]; [| reflexivity].
  rewrite JSON_parse_empty. discriminate.
Qed.

Lemma getPersistedValue_parsed (storage : gmap string string) (key text : string)
    (value : JSValue) :
  getItem storage key = Some text ->
  JSON_parse text = Normal value ->
  Store.getPersistedValue storage key = Normal value.
Proof.
  intros Hk Hp. unfold Store.getPersistedValue.
  rewrite Hk, (parsed_text_truthy _ _ Hp), Hp. reflexivity.
Qed.

Lemma getInitialCards_parsed (storage : gmap string string) (text : string)
    (value : JSValue) :
  getItem storage "cards" = Some text ->
  JSON_parse text = Normal value ->
  Plain.getInitialCards storage = Normal value.
Proof.
  intros Hk Hp. unfold Plain.getInitialCards.
  rewrite Hk, (parsed_text_truthy _ _ Hp), Hp. reflexivity.
Qed.

(** The effect of a persistent store never writes local storage. *)
Lemma persist_localStorage (options : Store.Options) (value : JSValue) (b : Browser) :
  localStorage (Store.persist options value b) = localStorage b.
Proof. unfold Store.persist. destruct (JSON_stringify value); reflexivity. Qed.

Lemma persist_sessionStorage (options : Store.Options) (value : JSValue)
    (text : string) (b : Browser) :
  JSON_stringify value = Normal text ->
  getItem (sessionStorage (Store.persist options value b)) (Store.key options)
  = Some text.
Proof.
  intros Hs. unfold Store.persist, getItem. rewrite Hs. cbn.
  apply lookup_insert_eq.
Qed.

(** C5.  When the key is absent from the storage, or the string stored under
    it is not JSON, loading does not throw and yields the default:
    [getPersistedValue] returns [undefined], so that [createPersistentStore]
    starts from the object it was given, and [getInitialCards] returns the
    empty list. *)
Theorem load_falls_back_to_default
    (object : JSValue) (options : Store.Options) (b : Browser)
    (storage : gmap string string) :
  (getItem (Store.selectedStorage options b) (Store.key options) = None
   \/ exists text,
        getItem (Store.selectedStorage options b) (Store.key options) = Some text
        /\ JSON_parse text = Thrown) ->
  (getItem storage "cards" = None
   \/ exists text,
        getItem storage "cards" = Some text /\ JSON_parse text = Thrown) ->
  Store.getPersistedValue (Store.selectedStorage options b) (Store.key options)
  = Normal JUndefined
  /\ Store.createPersistentStore object options b
     = Normal (object, Store.persist options object b)
  /\ Plain.getInitialCards storage = Normal (JArray []).
Proof.
  intros Hstore Hcards.
  assert (Hload : Store.getPersistedValue (Store.selectedStorage options b)
                    (Store.key options) = Normal JUndefined).
  { destruct Hstore as [Habsent | (text & Hk & Hp)].
    - apply getPersistedValue_absent. exact Habsent.
    - apply (getPersistedValue_invalid _ _ text); assumption. }
  split; [exact Hload |]. split.
  - unfold Store.createPersistentStore. rewrite Hload. reflexivity.
  - unfold Plain.getInitialCards.
    destruct Hcards as [Habsent | (text & Hk & Hp)].
    + rewrite Habsent. reflexivity.
    + rewrite Hk. destruct (truthy_string text); [rewrite Hp |]; reflexivity.
Qed.

(** Equal values come from equal card lists, so that reading back
    [js_of_cards cards] is reading back [cards]. *)
Lemma js_of_cards_inj (cards cards' : list Card) :
  js_of_cards cards = js_of_cards cards' -> cards = cards'.
Proof.
  unfold js_of_cards. intros Heq. injection Heq as Heq.
  revert cards' Heq.
  induction cards as [| card rest IH]; intros [| card' rest'] Heq;
    try discriminate Heq; [reflexivity |].
  cbn in Heq. injection Heq as Hid Htext Hx Hy Hrest.
  f_equal; [| apply IH; exact Hrest].
  destruct card as [i [px py] t], card' as [i' [px' py'] t'].
  cbn in *. congruence.
Qed.

(** *** Bursts of updates *)

Lemma zoom_dispatch_log (a : Zoom.Action) (w : Zoom.World) :
  length (setItemCalls (Zoom.w_browser (Zoom.dispatch a w)))
  = (length (setItemCalls (Zoom.w_browser w)) + Zoom.serialised_change a w)%nat.
Proof.
  unfold Zoom.serialised_change, Zoom.changed_store, Zoom.dispatch.
  destruct a as [generatedId | id card | e | e | e |]; cbn.
  - unfold Store.persist. destruct (JSON_stringify _); cbn; lia.
  - destruct (updateCard_notifies id card (Zoom.w_cards w)); [| lia].
    unfold Store.persist. destruct (JSON_stringify _); cbn; lia.
  - destruct (Zoom.canvas_notifies _ _); [| lia].
    unfold Store.persist. destruct (JSON_stringify _); cbn; lia.
  - lia.
  - destruct (Zoom.handleBackgroundMouseMove e _ _) as [downPosition next]; cbn.
    destruct (Zoom.canvas_notifies _ _); [| lia].
    unfold Store.persist. destruct (JSON_stringify _); cbn; lia.
  - lia.
Qed.

Lemma zoom_run_log (actions : list Zoom.Action) (w : Zoom.World) :
  length (setItemCalls (Zoom.w_browser (Zoom.run actions w)))
  = (length (setItemCalls (Zoom.w_browser w)) + Zoom.serialised_changes actions w)%nat.
Proof.
  revert w. induction actions as [| a rest IH]; intros w; cbn.
  - lia.
  - unfold Zoom.run in IH. rewrite IH, zoom_dispatch_log. lia.
Qed.

Lemma plain_dispatch_log (a : Plain.Action) (w : Plain.World) :
  length (setItemCalls (Plain.w_browser (Plain.dispatch a w)))
  = (length (setItemCalls (Plain.w_browser w)) + Plain.serialised_change a w)%nat.
Proof.
  unfold Plain.serialised_change, Plain.changed_store, Plain.dispatch.
  destruct a as [generatedId | id card]; cbn.
  - unfold Plain.persistCards. destruct (JSON_stringify _); cbn; lia.
  - destruct (updateCard_notifies id card (Plain.w_cards w)); [| lia].
    unfold Plain.persistCards. destruct (JSON_stringify _); cbn; lia.
Qed.

Lemma plain_run_log (actions : list Plain.Action) (w : Plain.World) :
  length (setItemCalls (Plain.w_browser (Plain.run actions w)))
  = (length (setItemCalls (Plain.w_browser w)) + Plain.serialised_changes actions w)%nat.
Proof.
  revert w. induction actions as [| a rest IH]; intros w; cbn.
  - lia.
  - unfold Plain.run in IH. rewrite IH, plain_dispatch_log. lia.
Qed.

(** Each write holds the value the store has after the update. *)
Lemma zoom_dispatch_persists (a : Zoom.Action) (w : Zoom.World)
    (options : Store.Options) (value : JSValue) (text : string) :
  Zoom.changed_store a w = Some (options, value) ->
  JSON_stringify value = Normal text ->
  Zoom.w_browser (Zoom.dispatch a w)
  = sessionStorage_setItem (Store.key options) text (Zoom.w_browser w).
Proof.
  unfold Zoom.changed_store, Zoom.dispatch.
  destruct a as [generatedId | id card | e | e | e |]; cbn.
  - intros [= <- <-] Hs. unfold Store.persist. rewrite Hs. reflexivity.
  - destruct (updateCard_notifies id card (Zoom.w_cards w)); [| discriminate].
    intros [= <- <-] Hs. unfold Store.persist. rewrite Hs. reflexivity.
  - destruct (Zoom.canvas_notifies _ _); [| discriminate].
    intros [= <- <-] Hs. unfold Store.persist. rewrite Hs. reflexivity.
  - discriminate.
  - destruct (Zoom.handleBackgroundMouseMove e _ _) as [downPosition next]; cbn.
    destruct (Zoom.canvas_notifies _ _); [| discriminate].
    intros [= <- <-] Hs. unfold Store.persist. rewrite Hs. reflexivity.
  - discriminate.
Qed.

(** C3, as the code has it.  Persistence is not debounced: in both Apps the
    number of [setItem] calls made during a burst of updates is the number of
    updates in the burst that changed their store and whose new value
    [JSON.stringify] serialised, one write for each. *)
Theorem burst_writes_per_update
    (actions : list Zoom.Action) (w : Zoom.World)
    (actions' : list Plain.Action) (w' : Plain.World) :
  Zoom.writes_during actions w = Zoom.serialised_changes actions w
  /\ Plain.writes_during actions' w' = Plain.serialised_changes actions' w'.
Proof.
  unfold Zoom.writes_during, Plain.writes_during.
  rewrite zoom_run_log, plain_run_log. lia.
Qed.

End Persistence.

(** ** The sample platform at work *)

Section Examples.
Local Open Scope Q_scope.

Lemma load_falls_back_to_default_witness :
  (exists text,
     getItem (sessionStorage Sample.brokenBrowser) "position" = Some text
     /\ Sample.parse text = Thrown)
  /\ getItem (sessionStorage Sample.brokenBrowser) "cards" = None
  /\ Store.getPersistedValue (H := Sample.platform)
       (sessionStorage Sample.brokenBrowser) "position" = Normal JUndefined
  /\ Store.createPersistentStore (H := Sample.platform)
       (js_of_canvas Zoom.defaultCanvasPosition) Zoom.positionOptions
       Sample.brokenBrowser
     = Normal (js_of_canvas Zoom.defaultCanvasPosition,
               Store.persist (H := Sample.platform) Zoom.positionOptions
                 (js_of_canvas Zoom.defaultCanvasPosition) Sample.brokenBrowser)
  /\ Plain.getInitialCards (H := Sample.platform)
       (sessionStorage Sample.brokenBrowser) = Normal (JArray []).
Proof.
  split; [exists "{oops"%string; split; reflexivity |].
  split; [reflexivity |].
  apply (load_falls_back_to_default (H := Sample.platform)
           (js_of_canvas Zoom.defaultCanvasPosition) Zoom.positionOptions
           Sample.brokenBrowser (sessionStorage Sample.brokenBrowser)).
  - right. exists "{oops"%string. split; reflexivity.
  - left. reflexivity.
Defined.

(** C1, on the code.  A store of type ["local"] is loaded from local storage
    and persisted to session storage: after the store is created in an empty
    browser and then changed, local storage is still empty, session storage
    holds the changed value under the key, and a reload, which reads local
    storage, starts from the default again. *)
Theorem local_store_persists_to_session :
  let default := js_of_canvas Zoom.defaultCanvasPosition in
  let changed := js_of_canvas Sample.canvas in
  exists created text,
    Store.createPersistentStore (H := Sample.platform) default Sample.localOptions
      Sample.emptyBrowser = Normal (default, created)
    /\ Sample.print changed = Normal text
    /\ let written :=
         Store.persist (H := Sample.platform) Sample.localOptions changed created in
       Store.selectedStorage Sample.localOptions written = localStorage written
       /\ localStorage written = ∅
       /\ getItem (sessionStorage written) "position" = Some text
       /\ setItemCalls written
          = [(session, "position"%string, text);
             (session, "position"%string,
              match Sample.print default with Normal t => t | Thrown => EmptyString end)]
       /\ Store.createPersistentStore (H := Sample.platform) default
            Sample.localOptions written
          = Normal (default,
                    Store.persist (H := Sample.platform) Sample.localOptions default
                      written).
Proof.
  eexists. eexists.
  split; [reflexivity |]. split; [vm_compute; reflexivity |].
  repeat split; vm_compute; reflexivity.
Qed.

(** C3, as stated, fails.  On the sample platform, starting from an empty
    browser: a card added, dragged and edited makes three writes; two wheel
    events and two moves of a background drag make four; in the plain App a
    card added and dragged makes two.  None of the bursts is folded into a
    single write. *)
Lemma burst_is_not_a_single_write :
  Zoom.writes_during (H := Sample.platform) Sample.cardBurst Sample.zoomWorld = 3%nat
  /\ Zoom.writes_during (H := Sample.platform) Sample.transformBurst Sample.zoomWorld
     = 4%nat
  /\ Plain.writes_during (H := Sample.platform) Sample.plainBurst Sample.plainWorld
     = 2%nat.
Proof. repeat split; vm_compute; reflexivity. Qed.

End Examples.

(** ** More on the card list *)

Section CardListLaws.
Local Open Scope Q_scope.

Lemma setStore_at_length (value : Card) (cards : list Card) :
  setStore_at (length cards) value cards = cards ++ [value].
Proof.
  unfold setStore_at. destruct (decide (length cards < length cards)%nat) as [Hlt | _].
  - lia.
  - reflexivity.
Qed.

Lemma updateCard_ids (id : string) (patch : CardPatch) (cards : list Card) :
  map card_id (Zoom.updateCard id patch cards) = map card_id cards.
Proof.
  unfold Zoom.updateCard, setStore_where. rewrite map_map.
  apply map_ext. intros card. destruct (String.eqb (card_id card) id); reflexivity.
Qed.

Lemma updateCard_quiet (id : string) (patch : CardPatch) (cards : list Card) :
  updateCard_notifies id patch cards = false ->
  Zoom.updateCard id patch cards = cards.
Proof.
  unfold updateCard_notifies, Zoom.updateCard, setStore_where.
  induction cards as [| card rest IH]; cbn; [reflexivity |].
  intros Hq. apply orb_false_iff in Hq as [Hcard Hrest].
  rewrite (IH Hrest). f_equal.
  destruct (String.eqb (card_id card) id); [| reflexivity].
  cbn in Hcard. unfold assign_notifies in Hcard. unfold Object_assign.
  destruct card as [i p t], patch as [[pp |] [pt |]]; cbn in *;
    try discriminate Hcard; [| reflexivity].
  apply negb_false_iff, String.eqb_eq in Hcard. subst pt. reflexivity.
Qed.

(** X1.  [addCard], in either App, keeps every card and puts one new card
    after them: the generated id, the text "New Card", the position
    (100, 100). *)
Theorem addCard_appends (generatedId : string) (cards : list Card) :
  let card :=
    {| card_id := generatedId; card_text := "New Card";
       card_position := {| pos_x := 100; pos_y := 100 |} |} in
  Zoom.addCard generatedId cards = cards ++ [card]
  /\ Plain.addCard generatedId cards = cards ++ [card].
Proof. split; apply setStore_at_length. Qed.

(** X2.  [updateCard] with an id that no card has changes nothing, and
    notifies no effect. *)
Theorem updateCard_unknown_id (id : string) (patch : CardPatch) (cards : list Card) :
  Forall (fun card => card_id card <> id) cards ->
  Zoom.updateCard id patch cards = cards
  /\ Plain.updateCard id patch cards = cards
  /\ updateCard_notifies id patch cards = false.
Proof.
  intros Hnone.
  assert (Hquiet : updateCard_notifies id patch cards = false).
  { unfold updateCard_notifies. induction Hnone as [| card rest Hcard _ IH]; cbn.
    - reflexivity.
    - apply String.eqb_neq in Hcard. rewrite Hcard, IH. reflexivity. }
  split; [| split]; [| | exact Hquiet]; apply updateCard_quiet; exact Hquiet.
Qed.

Lemma updateCard_unknown_id_witness :
  Forall (fun card => card_id card <> "z"%string) Sample.cards
  /\ Zoom.updateCard "z" Sample.moved Sample.cards = Sample.cards
  /\ Plain.updateCard "z" Sample.moved Sample.cards = Sample.cards
  /\ updateCard_notifies "z" Sample.moved Sample.cards = false.
Proof.
  assert (Hnone : Forall (fun card => card_id card <> "z"%string) Sample.cards).
  { repeat constructor; cbn; discriminate. }
  split; [exact Hnone |].
  exact (updateCard_unknown_id "z" Sample.moved Sample.cards Hnone).
Defined.

(** X3.  [updateCard] is idempotent: the same update applied twice gives what
    it gives applied once. *)
Theorem updateCard_idempotent (id : string) (patch : CardPatch) (cards : list Card) :
  Zoom.updateCard id patch (Zoom.updateCard id patch cards)
  = Zoom.updateCard id patch cards.
Proof.
  unfold Zoom.updateCard, setStore_where. rewrite map_map.
  apply map_ext. intros card.
  destruct (String.eqb (card_id card) id) eqn:Hid; cbn.
  - rewrite Hid. destruct patch as [[pp |] [pt |]]; reflexivity.
  - rewrite Hid. reflexivity.
Qed.

(** X4.  Updates of cards with different ids commute. *)
Theorem updateCard_commutes (id id' : string) (patch patch' : CardPatch)
    (cards : list Card) :
  id <> id' ->
  Zoom.updateCard id patch (Zoom.updateCard id' patch' cards)
  = Zoom.updateCard id' patch' (Zoom.updateCard id patch cards).
Proof.
  intros Hne. unfold Zoom.updateCard, setStore_where. rewrite !map_map.
  apply map_ext. intros card.
  destruct (String.eqb (card_id card) id) eqn:Hid;
    destruct (String.eqb (card_id card) id') eqn:Hid'; cbn;
    rewrite ?Hid, ?Hid'; try reflexivity.
  apply String.eqb_eq in Hid, Hid'. congruence.
Qed.

Lemma updateCard_commutes_witness :
  "a"%string <> "b"%string
  /\ Zoom.updateCard "a" Sample.moved (Zoom.updateCard "b" Sample.retyped Sample.cards)
     = Zoom.updateCard "b" Sample.retyped (Zoom.updateCard "a" Sample.moved Sample.cards).
Proof.
  split; [discriminate |].
  apply (updateCard_commutes "a" "b" Sample.moved Sample.retyped Sample.cards).
  discriminate.
Defined.

(** X5.  Distinct ids stay distinct: when no two cards share an id,
    [updateCard] keeps it so, and so does [addCard] with an id that no card
    has yet. *)
Theorem unique_ids_preserved
    (generatedId id : string) (patch : CardPatch) (cards : list Card) :
  NoDup (map card_id cards) ->
  ~ In generatedId (map card_id cards) ->
  NoDup (map card_id (Zoom.updateCard id patch cards))
  /\ NoDup (map card_id (Zoom.addCard generatedId cards))
  /\ NoDup (map card_id (Zoom.updateCard id patch (Zoom.addCard generatedId cards))).
Proof.
  intros Hnodup Hfresh.
  assert (Hadd : NoDup (map card_id (Zoom.addCard generatedId cards))).
  { unfold Zoom.addCard. rewrite setStore_at_length, map_app. cbn.
    apply NoDup_app. split; [exact Hnodup |]. split.
    - intros x Hx Hin. apply list_elem_of_In in Hx.
      apply list_elem_of_singleton in Hin. subst x. contradiction.
    - apply NoDup_singleton. }
  rewrite !updateCard_ids. split; [exact Hnodup |]. split; exact Hadd.
Qed.

Lemma unique_ids_preserved_witness :
  NoDup (map card_id Sample.cards)
  /\ ~ In "c"%string (map card_id Sample.cards)
  /\ NoDup (map card_id (Zoom.updateCard "a" Sample.moved Sample.cards))
  /\ NoDup (map card_id (Zoom.addCard "c" Sample.cards))
  /\ NoDup (map card_id
              (Zoom.updateCard "a" Sample.moved (Zoom.addCard "c" Sample.cards))).
Proof.
  assert (Hnodup : NoDup (map card_id Sample.cards)).
  { cbn. apply NoDup_cons. split.
    - intros Hin. apply list_elem_of_singleton in Hin. discriminate Hin.
    - apply NoDup_singleton. }
  assert (Hfresh : ~ In "c"%string (map card_id Sample.cards)).
  { cbn. intros [Hc | [Hc | []]]; discriminate Hc. }
  split; [exact Hnodup |]. split; [exact Hfresh |].
  exact (unique_ids_preserved "c" "a" Sample.moved Sample.cards Hnodup Hfresh).
Defined.

Lemma unique_id_index (cards : list Card) (i j : nat) (c c' : Card) :
  NoDup (map card_id cards) ->
  cards !! i = Some c -> cards !! j = Some c' -> card_id c = card_id c' -> i = j.
Proof.
  intros Hnodup Hi Hj Hid.
  apply (NoDup_lookup (map card_id cards) i j (card_id c)); [exact Hnodup | |].
  - change (map card_id cards) with (card_id <$> cards).
    rewrite list_lookup_fmap, Hi. reflexivity.
  - change (map card_id cards) with (card_id <$> cards).
    rewrite list_lookup_fmap, Hj, Hid. reflexivity.
Qed.

(** X6.  When no two cards share an id, [updateCard] with the id of the card
    at index [i] changes that card and no other: the card at [i] takes the
    properties of the patch, every other index holds what it held. *)
Theorem updateCard_changes_one
    (patch : CardPatch) (cards : list Card) (i : nat) (c : Card) :
  NoDup (map card_id cards) ->
  cards !! i = Some c ->
  Zoom.updateCard (card_id c) patch cards !! i = Some (Object_assign c patch)
  /\ forall j, j <> i ->
       Zoom.updateCard (card_id c) patch cards !! j = cards !! j.
Proof.
  intros Hnodup Hi. split.
  - rewrite (updateCard_lookup _ _ _ _ _ Hi), String.eqb_refl. reflexivity.
  - intros j Hji. destruct (cards !! j) as [c' |] eqn:Hj.
    + rewrite (updateCard_lookup _ _ _ _ _ Hj).
      destruct (String.eqb_spec (card_id c') (card_id c)) as [Hid | Hid];
        [| reflexivity].
      exfalso. apply Hji.
      exact (unique_id_index cards j i c' c Hnodup Hj Hi Hid).
    + unfold Zoom.updateCard. rewrite setStore_where_lookup, Hj. reflexivity.
Qed.

Lemma updateCard_changes_one_witness :
  NoDup (map card_id Sample.cards)
  /\ Sample.cards !! 1%nat = Some Sample.card_b
  /\ Zoom.updateCard "b" Sample.moved Sample.cards !! 1%nat
     = Some (Object_assign Sample.card_b Sample.moved)
  /\ Zoom.updateCard "b" Sample.moved Sample.cards !! 0%nat = Sample.cards !! 0%nat.
Proof.
  assert (Hnodup : NoDup (map card_id Sample.cards)).
  { cbn. apply NoDup_cons. split.
    - intros Hin. apply list_elem_of_singleton in Hin. discriminate Hin.
    - apply NoDup_singleton. }
  split; [exact Hnodup |]. split; [reflexivity |].
  destruct (updateCard_changes_one Sample.moved Sample.cards 1 Sample.card_b
              Hnodup eq_refl) as [Hone Hothers].
  split; [exact Hone |].
  apply (Hothers 0%nat). discriminate.
Defined.

(** X7.  Cards that share an id move together: a mousemove during the drag
    of one card gives every card with the same id the new position of the
    dragged card, whatever position it had; its text stays. *)
Theorem handleMouseMove_moves_same_id
    (e : MouseEvent) (props : Zoom.CardProps) (l : Zoom.CardLocal)
    (prev : Position) (cards : list Card) (i j : nat) (other : Card) :
  Zoom.prevMousePosition l = Some prev ->
  cards !! i = Some (Zoom.props_card props) ->
  cards !! j = Some other ->
  card_id other = card_id (Zoom.props_card props) ->
  exists dragged moved,
    snd (Zoom.handleMouseMove e props l cards) !! i = Some dragged
    /\ snd (Zoom.handleMouseMove e props l cards) !! j = Some moved
    /\ card_position moved = card_position dragged
    /\ card_text moved = card_text other.
Proof.
  intros Hprev Hi Hj Hid.
  unfold Zoom.handleMouseMove. rewrite Hprev. cbn [snd].
  eexists. eexists. split; [| split].
  - rewrite (updateCard_lookup _ _ _ _ _ Hi), String.eqb_refl. reflexivity.
  - rewrite (updateCard_lookup _ _ _ _ _ Hj), Hid, String.eqb_refl. reflexivity.
  - split; reflexivity.
Qed.

Lemma handleMouseMove_moves_same_id_witness :
  let after :=
    Zoom.handleMouseMove Sample.dragEvent Sample.dragProps Sample.dragLocal
      Fixtures.twins in
  Zoom.prevMousePosition Sample.dragLocal = Some {| pos_x := 10; pos_y := 10 |}
  /\ Fixtures.twins !! 0%nat = Some (Zoom.props_card Sample.dragProps)
  /\ Fixtures.twins !! 2%nat = Some Fixtures.twin
  /\ card_id Fixtures.twin = card_id (Zoom.props_card Sample.dragProps)
  /\ exists dragged moved,
       snd after !! 0%nat = Some dragged
       /\ snd after !! 2%nat = Some moved
       /\ card_position moved = card_position dragged
       /\ card_text moved = card_text Fixtures.twin.
Proof.
  split; [reflexivity |]. split; [reflexivity |]. split; [reflexivity |].
  split; [reflexivity |].
  apply (handleMouseMove_moves_same_id Sample.dragEvent Sample.dragProps
           Sample.dragLocal {| pos_x := 10; pos_y := 10 |} Fixtures.twins 0 2
           Fixtures.twin); reflexivity.
Defined.

End CardListLaws.

(** ** Drags *)

Section Drags.
Local Open Scope Q_scope.


Lemma Qeq_bool_same (q : Q) : Qeq_bool q q = true.
Proof. apply Qeq_bool_iff. reflexivity. Qed.

Lemma canvas_notifies_same (p : CanvasPosition) : Zoom.canvas_notifies p p = false.
Proof. unfold Zoom.canvas_notifies. rewrite !Qeq_bool_same. reflexivity. Qed.

(** X9.  Without a drag under way a mousemove on the background changes
    nothing, neither the state nor the browser: before any mousedown, and
    again after the mouseup. *)
Theorem background_move_needs_drag `{JSON} (e : MouseEvent) (w : Zoom.World) :
  Zoom.dispatch (Zoom.BackgroundMouseMove e) (Zoom.dispatch Zoom.BackgroundMouseUp w)
  = Zoom.dispatch Zoom.BackgroundMouseUp w
  /\ Zoom.handleBackgroundMouseMove e None (Zoom.w_canvasPosition w)
     = (None, Zoom.w_canvasPosition w).
Proof.
  split; [| reflexivity].
  unfold Zoom.dispatch. cbn. unfold Zoom.setCanvasPosition. cbn.
  rewrite canvas_notifies_same. reflexivity.
Qed.




(** X12.  A Card whose drag has ended ignores mousemoves: after
    [handleMouseUp], [handleMouseMove] leaves the cards and the component as
    they are, in both Apps. *)
Theorem card_move_needs_drag (i : nat) (s : Q) (e : MouseEvent)
    (l : Zoom.CardLocal) (cards : list Card) :
  Mounted.zoomMouseMove i s e (Zoom.handleMouseUp l, cards)
  = (Zoom.handleMouseUp l, cards)
  /\ Mounted.plainMouseMove i e (snd Mounted.plainMouseUp, cards)
     = (snd Mounted.plainMouseUp, cards).
Proof.
  unfold Mounted.zoomMouseMove, Mounted.plainMouseMove. cbn [fst snd].
  destruct (cards !! i); split; reflexivity.
Qed.

(** X13.  Typing into a card of the zoomable App sets the text of that card
    to the value of the textarea and keeps its position and id; a card with
    another id is as before. *)
Theorem onInput_sets_text (i : nat) (s : Q) (value : string) (cards : list Card)
    (c : Card) :
  cards !! i = Some c ->
  Mounted.zoomInput i s value cards !! i
  = Some {| card_id := card_id c; card_position := card_position c;
            card_text := value |}
  /\ forall j other,
       cards !! j = Some other -> card_id other <> card_id c ->
       Mounted.zoomInput i s value cards !! j = Some other.
Proof.
  intros Hi. unfold Mounted.zoomInput. rewrite Hi. unfold Zoom.onInput. cbn. split.
  - rewrite (updateCard_lookup _ _ _ _ _ Hi), String.eqb_refl. reflexivity.
  - intros j other Hj Hid. rewrite (updateCard_lookup _ _ _ _ _ Hj).
    apply String.eqb_neq in Hid. rewrite Hid. reflexivity.
Qed.

Lemma onInput_sets_text_witness :
  Sample.cards !! 0%nat = Some Sample.card_a
  /\ Mounted.zoomInput 0 2 "hello" Sample.cards !! 0%nat
     = Some {| card_id := "a"; card_position := {| pos_x := 100; pos_y := 100 |};
               card_text := "hello" |}
  /\ Mounted.zoomInput 0 2 "hello" Sample.cards !! 1%nat = Some Sample.card_b.
Proof.
  split; [reflexivity |].
  destruct (onInput_sets_text 0 2 "hello" Sample.cards Sample.card_a eq_refl)
    as [Hset Hothers].
  split; [exact Hset |].
  apply (Hothers 1%nat Sample.card_b); [reflexivity | discriminate].
Defined.

End Drags.

(** ** More on the wheel *)

Section Wheel.
Local Open Scope Q_scope.

(** The scale before clamping is the scale minus [deltaY] times the scaling
    factor, in either direction. *)
Lemma handleWheel_unclamped (e : WheelEvent) (p : CanvasPosition) :
  exists unclamped,
    unclamped == canvas_scale p - deltaY e * Zoom.SCALING_FACTOR
    /\ canvas_scale (Zoom.handleWheel e p)
       = clamp unclamped Zoom.MIN_SCALE Zoom.MAX_SCALE.
Proof.
  unfold Zoom.handleWheel. cbn [canvas_scale].
  destruct (Qlt_le_dec (deltaY e) 0) as [Hneg | Hpos]; eexists; (split; [| reflexivity]).
  - rewrite (Qabs_neg (deltaY e)) by lra. ring.
  - rewrite (Qabs_pos (deltaY e)) by lra. ring.
Qed.

(** X14.  With the scale within its limits, turning the wheel up
    ([deltaY] below 0) never lowers the scale and turning it down never
    raises it. *)
Theorem handleWheel_direction (e : WheelEvent) (p : CanvasPosition) :
  Zoom.MIN_SCALE <= canvas_scale p ->
  canvas_scale p <= Zoom.MAX_SCALE ->
  (deltaY e < 0 -> canvas_scale p <= canvas_scale (Zoom.handleWheel e p))
  /\ (0 <= deltaY e -> canvas_scale (Zoom.handleWheel e p) <= canvas_scale p).
Proof.
  intros Hlo Hhi.
  destruct (handleWheel_unclamped e p) as (u & Hu & ->).
  unfold Zoom.SCALING_FACTOR in Hu. unfold clamp.
  unfold Zoom.MIN_SCALE, Zoom.MAX_SCALE in *.
  split; intros Hd;
    destruct (Qlt_le_dec u (1 # 4)) as [H1 | H1];
    try destruct (Qlt_le_dec 5 u) as [H2 | H2]; lra.
Qed.

Lemma handleWheel_direction_witness :
  Zoom.MIN_SCALE <= canvas_scale Sample.canvas
  /\ canvas_scale Sample.canvas <= Zoom.MAX_SCALE
  /\ deltaY Sample.wheel < 0
  /\ canvas_scale Sample.canvas
     <= canvas_scale (Zoom.handleWheel Sample.wheel Sample.canvas).
Proof.
  assert (Hlo : Zoom.MIN_SCALE <= canvas_scale Sample.canvas)
    by (intros Hc; discriminate Hc).
  assert (Hhi : canvas_scale Sample.canvas <= Zoom.MAX_SCALE)
    by (intros Hc; discriminate Hc).
  assert (Hup : deltaY Sample.wheel < 0) by reflexivity.
  split; [exact Hlo |]. split; [exact Hhi |]. split; [exact Hup |].
  exact (proj1 (handleWheel_direction Sample.wheel Sample.canvas Hlo Hhi) Hup).
Defined.

End Wheel.

(** ** More on loading and persisting *)

Section Stores.
Context `{JSON}.

Lemma getPersistedValue_normal (storage : gmap string string) (key : string) :
  exists value, Store.getPersistedValue storage key = Normal value.
Proof.
  unfold Store.getPersistedValue.
  destruct (getItem storage key) as [text |]; cbn; [| eexists; reflexivity].
  destruct (truthy_string text); cbn; [| eexists; reflexivity].
  destruct (JSON_parse text); cbn; eexists; reflexivity.
Qed.

Lemma persist_other_key (options : Store.Options) (value : JSValue) (b : Browser)
    (key : string) :
  key <> Store.key options ->
  getItem (sessionStorage (Store.persist options value b)) key
  = getItem (sessionStorage b) key.
Proof.
  intros Hne. unfold Store.persist, getItem.
  destruct (JSON_stringify value); [| reflexivity].
  cbn. apply lookup_insert_ne. congruence.
Qed.

(** X17.  Loading never throws.  [getPersistedValue] returns [undefined] or
    the value [JSON.parse] gave for the stored text; [getInitialCards]
    returns the empty list or the value [JSON.parse] gave for the text stored
    under "cards". *)
Theorem loading_never_throws (storage : gmap string string) (key : string) :
  (exists value,
     Store.getPersistedValue storage key = Normal value
     /\ (value = JUndefined
         \/ exists text,
              getItem storage key = Some text /\ JSON_parse text = Normal value))
  /\ (exists value,
        Plain.getInitialCards storage = Normal value
        /\ (value = JArray []
            \/ exists text,
                 getItem storage "cards" = Some text
                 /\ JSON_parse text = Normal value)).
Proof.
  split.
  - unfold Store.getPersistedValue.
    destruct (getItem storage key) as [text |] eqn:Hk; cbn.
    + destruct (truthy_string text); cbn.
      * destruct (JSON_parse text) as [value |] eqn:Hp; cbn; eexists;
          (split; [reflexivity |]); [right; exists text; split; [reflexivity | exact Hp]
                                    | left; reflexivity].
      * eexists. split; [reflexivity | left; reflexivity].
    + eexists. split; [reflexivity | left; reflexivity].
  - unfold Plain.getInitialCards.
    destruct (getItem storage "cards") as [text |] eqn:Hk; cbn.
    + destruct (truthy_string text); cbn.
      * destruct (JSON_parse text) as [value |] eqn:Hp; cbn; eexists;
          (split; [reflexivity |]); [right; exists text; split; [reflexivity | exact Hp]
                                    | left; reflexivity].
      * eexists. split; [reflexivity | left; reflexivity].
    + eexists. split; [reflexivity | left; reflexivity].
Qed.

(** X19.  The two stores of the zoomable App do not touch each other's
    entry: the effect of the canvas store leaves what is stored under "cards"
    as it is, and the effect of the cards store leaves what is stored under
    "position". *)
Theorem stores_do_not_interfere (cards position : JSValue) (b : Browser) :
  getItem (sessionStorage (Store.persist Zoom.positionOptions position b)) "cards"
  = getItem (sessionStorage b) "cards"
  /\ getItem (sessionStorage (Store.persist Zoom.cardsOptions cards b)) "position"
     = getItem (sessionStorage b) "position".
Proof.
  split; apply persist_other_key; discriminate.
Qed.

(** X22.  A stored text that parses to a falsy value ([null], [false], 0) is
    loaded differently by the two Apps: [createPersistentStore] starts from
    the default object, [getInitialCards] returns the falsy value itself. *)
Theorem falsy_value_loads
    (object value : JSValue) (text : string) (b : Browser) :
  getItem (sessionStorage b) "cards" = Some text ->
  JSON_parse text = Normal value ->
  truthy value = false ->
  Store.createPersistentStore object Zoom.cardsOptions b
  = Normal (object, Store.persist Zoom.cardsOptions object b)
  /\ Plain.getInitialCards (sessionStorage b) = Normal value.
Proof.
  intros Hk Hp Hf. split.
  - unfold Store.createPersistentStore. cbn [Store.selectedStorage Zoom.cardsOptions
      Store.type Store.key].
    rewrite (getPersistedValue_parsed _ _ text value Hk Hp).
    unfold js_or. rewrite Hf. reflexivity.
  - exact (getInitialCards_parsed _ text value Hk Hp).
Qed.

(** X23.  The two Apps write the cards alike: the effect of the plain App
    leaves the browser as the effect of the persistent cards store leaves it;
    when [JSON.stringify] throws, the plain App's effect throws and the
    persistent store's catches, and neither writes. *)
Theorem variants_persist_alike (cards : list Card) (b : Browser) :
  match Plain.persistCards cards b with
  | Normal b' => b' = Store.persist Zoom.cardsOptions (js_of_cards cards) b
  | Thrown => Store.persist Zoom.cardsOptions (js_of_cards cards) b = b
  end.
Proof.
  unfold Plain.persistCards, Store.persist.
  destruct (JSON_stringify (js_of_cards cards)); reflexivity.
Qed.

(** X24.  Session storage follows the cards of the zoomable App: when it
    holds the text of the cards before an action, it holds the text of the
    cards after the action, provided [JSON.stringify] gives one; actions on
    the canvas and updates that change nothing leave the entry as it is. *)
Theorem dispatch_keeps_cards_stored
    (a : Zoom.Action) (w : Zoom.World) (text text' : string) :
  JSON_stringify (js_of_cards (Zoom.w_cards w)) = Normal text ->
  getItem (sessionStorage (Zoom.w_browser w)) "cards" = Some text ->
  JSON_stringify (js_of_cards (Zoom.w_cards (Zoom.dispatch a w))) = Normal text' ->
  getItem (sessionStorage (Zoom.w_browser (Zoom.dispatch a w))) "cards" = Some text'.
Proof.
  intros Hs Hk.
  destruct a as [generatedId | id card | e | e | e |]; cbn.
  - intros Hs'. exact (persist_sessionStorage Zoom.cardsOptions _ _ _ Hs').
  - destruct (updateCard_notifies id card (Zoom.w_cards w)) eqn:Hn.
    + intros Hs'. exact (persist_sessionStorage Zoom.cardsOptions _ _ _ Hs').
    + rewrite (updateCard_quiet _ _ _ Hn). intros Hs'. congruence.
  - intros Hs'. destruct (Zoom.canvas_notifies _ _).
    + rewrite (persist_other_key Zoom.positionOptions) by discriminate. congruence.
    + congruence.
  - intros Hs'. congruence.
  - destruct (Zoom.handleBackgroundMouseMove e _ _) as [downPosition next]. cbn.
    intros Hs'. destruct (Zoom.canvas_notifies _ _).
    + rewrite (persist_other_key Zoom.positionOptions) by discriminate. congruence.
    + congruence.
  - intros Hs'. congruence.
Qed.

End Stores.

(** ** The platforms at work on the stores *)

Section StoreExamples.
Local Open Scope Q_scope.

Lemma falsy_value_loads_witness :
  getItem (sessionStorage Fixtures.nullBrowser) "cards" = Some "null"%string
  /\ Fixtures.parse "null" = Normal JNull
  /\ truthy JNull = false
  /\ Store.createPersistentStore (H := Fixtures.platform) (JArray [])
       Zoom.cardsOptions Fixtures.nullBrowser
     = Normal (JArray [],
               Store.persist (H := Fixtures.platform) Zoom.cardsOptions (JArray [])
                 Fixtures.nullBrowser)
  /\ Plain.getInitialCards (H := Fixtures.platform)
       (sessionStorage Fixtures.nullBrowser) = Normal JNull.
Proof.
  split; [reflexivity |]. split; [reflexivity |]. split; [reflexivity |].
  apply (falsy_value_loads (H := Fixtures.platform) (JArray []) JNull "null"
           Fixtures.nullBrowser); reflexivity.
Defined.

Lemma dispatch_keeps_cards_stored_witness :
  let a := Zoom.UpdateCard "a" Sample.moved in
  let after := Zoom.dispatch (H := Sample.platform) a Fixtures.syncedWorld in
  let text' := Fixtures.text_of (js_of_cards (Zoom.w_cards after)) in
  Sample.print (js_of_cards (Zoom.w_cards Fixtures.syncedWorld))
  = Normal Sample.cards_text
  /\ getItem (sessionStorage (Zoom.w_browser Fixtures.syncedWorld)) "cards"
     = Some Sample.cards_text
  /\ Sample.print (js_of_cards (Zoom.w_cards after)) = Normal text'
  /\ getItem (sessionStorage (Zoom.w_browser after)) "cards" = Some text'.
Proof.
  split; [vm_compute; reflexivity |]. split; [reflexivity |].
  split; [vm_compute; reflexivity |].
  apply (dispatch_keeps_cards_stored (H := Sample.platform)
           (Zoom.UpdateCard "a" Sample.moved) Fixtures.syncedWorld
           Sample.cards_text).
  - vm_compute. reflexivity.
  - reflexivity.
  - vm_compute. reflexivity.
Defined.

End StoreExamples.

(** ** The scale over a burst *)

Section ScaleInvariant.
Context `{JSON}.
Local Open Scope Q_scope.

Lemma dispatch_scale (a : Zoom.Action) (w : Zoom.World) :
  Zoom.MIN_SCALE <= canvas_scale (Zoom.w_canvasPosition w)
  /\ canvas_scale (Zoom.w_canvasPosition w) <= Zoom.MAX_SCALE ->
  Zoom.MIN_SCALE <= canvas_scale (Zoom.w_canvasPosition (Zoom.dispatch a w))
  /\ canvas_scale (Zoom.w_canvasPosition (Zoom.dispatch a w)) <= Zoom.MAX_SCALE.
Proof.
  intros Hrange. destruct a as [generatedId | id card | e | e | e |]; cbn;
    try exact Hrange.
  - apply handleWheel_scale_limits.
  - destruct (Zoom.w_mouseDownPosition w) as [downPosition |]; cbn; exact Hrange.
Qed.

(** X25.  The scale stays within its limits: when it lies between
    [MIN_SCALE] and [MAX_SCALE], it does so after every burst of actions of
    the zoomable App. *)
Theorem run_keeps_scale_in_range (actions : list Zoom.Action) (w : Zoom.World) :
  Zoom.MIN_SCALE <= canvas_scale (Zoom.w_canvasPosition w) ->
  canvas_scale (Zoom.w_canvasPosition w) <= Zoom.MAX_SCALE ->
  Zoom.MIN_SCALE <= canvas_scale (Zoom.w_canvasPosition (Zoom.run actions w))
  /\ canvas_scale (Zoom.w_canvasPosition (Zoom.run actions w)) <= Zoom.MAX_SCALE.
Proof.
  intros Hlo Hhi. assert (Hrange := conj Hlo Hhi). clear Hlo Hhi.
  revert w Hrange. induction actions as [| a rest IH]; intros w Hrange.
  - exact Hrange.
  - unfold Zoom.run. cbn [foldl]. apply IH. apply dispatch_scale. exact Hrange.
Qed.

End ScaleInvariant.

Section ScaleExample.
Local Open Scope Q_scope.

Lemma run_keeps_scale_in_range_witness :
  let after := Zoom.run (H := Sample.platform) Sample.transformBurst Sample.zoomWorld in
  Zoom.MIN_SCALE <= canvas_scale (Zoom.w_canvasPosition Sample.zoomWorld)
  /\ canvas_scale (Zoom.w_canvasPosition Sample.zoomWorld) <= Zoom.MAX_SCALE
  /\ Zoom.MIN_SCALE <= canvas_scale (Zoom.w_canvasPosition after)
  /\ canvas_scale (Zoom.w_canvasPosition after) <= Zoom.MAX_SCALE.
Proof.
  assert (Hlo : Zoom.MIN_SCALE <= canvas_scale (Zoom.w_canvasPosition Sample.zoomWorld))
    by (intros Hc; discriminate Hc).
  assert (Hhi : canvas_scale (Zoom.w_canvasPosition Sample.zoomWorld) <= Zoom.MAX_SCALE)
    by (intros Hc; discriminate Hc).
  split; [exact Hlo |]. split; [exact Hhi |].
  exact (run_keeps_scale_in_range (H := Sample.platform) Sample.transformBurst
           Sample.zoomWorld Hlo Hhi).
Defined.

End ScaleExample.

(** ** The handlers on binary64 *)

Section DoubleArithmetic.
Local Open Scope Q_scope.













End DoubleArithmetic.

(** ** The stores as they are created *)

Section CreatedStores.
Context `{JSON}.

Lemma is_object_truthy (v : JSValue) : is_object v = true -> truthy v = true.
Proof. destruct v; cbn; intros Hv; try discriminate Hv; reflexivity. Qed.

Lemma createStore_object (v : JSValue) :
  is_object v = true -> createStore v = Normal v.
Proof.
  intros Hv. unfold createStore, js_or.
  rewrite (is_object_truthy v Hv), Hv. reflexivity.
Qed.

Lemma createStore_scalar (v : JSValue) :
  truthy v = true -> is_object v = false -> createStore v = Thrown.
Proof.
  intros Ht Hv. unfold createStore, js_or. rewrite Ht, Hv. reflexivity.
Qed.


(** X18.  A stored text that parses to a number other than 0, to [true] or
    to a non-empty string stops both Apps at start: [createStore] throws on
    it, so that [createPersistentStore] throws, and so does the plain App's
    [createStore(getInitialCards(...))]. *)
Theorem stored_scalar_throws
    (object value : JSValue) (text : string) (b : Browser) :
  getItem (sessionStorage b) "cards" = Some text ->
  JSON_parse text = Normal value ->
  truthy value = true ->
  is_object value = false ->
  Created.createPersistentStore object Zoom.cardsOptions b = Thrown
  /\ Created.initialCards (sessionStorage b) = Thrown.
Proof.
  intros Hk Hp Ht Hobj. split.
  - unfold Created.createPersistentStore.
    cbn [Store.selectedStorage Zoom.cardsOptions Store.type Store.key].
    rewrite (getPersistedValue_parsed _ _ text value Hk Hp).
    unfold js_or at 1. rewrite Ht, (createStore_scalar value Ht Hobj). reflexivity.
  - unfold Created.initialCards.
    rewrite (getInitialCards_parsed _ text value Hk Hp).
    exact (createStore_scalar value Ht Hobj).
Qed.

(** X20.  A store of type "session" starts from what the platform makes of
    the text its effect wrote: when [JSON.stringify] gives a text for the
    value of the store and [JSON.parse] returns an array or object for that
    text, [createPersistentStore] after the effect starts from the returned
    value, not from the default. *)
Theorem session_store_reloads
    (object value loaded : JSValue) (text : string) (options : Store.Options)
    (b : Browser) :
  Store.type options = session ->
  JSON_stringify value = Normal text ->
  JSON_parse text = Normal loaded ->
  is_object loaded = true ->
  Created.createPersistentStore object options (Store.persist options value b)
  = Normal (loaded, Store.persist options loaded (Store.persist options value b)).
Proof.
  intros Htype Hs Hp Hobj.
  unfold Created.createPersistentStore, Store.selectedStorage. rewrite Htype.
  rewrite (getPersistedValue_parsed _ _ text loaded
             (persist_sessionStorage options value text b Hs) Hp).
  unfold js_or at 1. rewrite (is_object_truthy loaded Hobj).
  rewrite (createStore_object loaded Hobj). reflexivity.
Qed.

(** X21.  A store of type "local" never reads what it wrote: after its
    effect [createPersistentStore] does what it did before, throwing if it
    threw and starting from the same initial value if it did not. *)
Theorem local_store_forgets
    (object value : JSValue) (options : Store.Options) (b : Browser) :
  Store.type options = local ->
  Created.createPersistentStore object options (Store.persist options value b)
  = match Created.createPersistentStore object options b with
    | Normal (initialValue, _) =>
        Normal (initialValue,
                Store.persist options initialValue (Store.persist options value b))
    | Thrown => Thrown
    end.
Proof.
  intros Htype.
  assert (Hsame : Store.selectedStorage options (Store.persist options value b)
                  = Store.selectedStorage options b).
  { unfold Store.selectedStorage. rewrite Htype. apply persist_localStorage. }
  unfold Created.createPersistentStore. rewrite Hsame.
  destruct (Store.getPersistedValue (Store.selectedStorage options b)
              (Store.key options)) as [persisted |]; [| reflexivity].
  destruct (createStore (js_or persisted object)); reflexivity.
Qed.

End CreatedStores.

(** ** The platforms at work on the created stores *)

Section CreatedExamples.
Local Open Scope Q_scope.



Lemma stored_scalar_throws_witness :
  getItem (sessionStorage Json.fiveBrowser) "cards" = Some "5"%string
  /\ Json.parse "5" = Normal (JNumber 5)
  /\ truthy (JNumber 5) = true
  /\ is_object (JNumber 5) = false
  /\ Created.createPersistentStore (H := Json.platform) (JArray [])
       Zoom.cardsOptions Json.fiveBrowser = Thrown
  /\ Created.initialCards (H := Json.platform)
       (sessionStorage Json.fiveBrowser) = Thrown.
Proof.
  split; [reflexivity |]. split; [reflexivity |]. split; [reflexivity |].
  split; [reflexivity |].
  apply (stored_scalar_throws (H := Json.platform) (JArray []) (JNumber 5) "5"
           Json.fiveBrowser); reflexivity.
Defined.

Lemma session_store_reloads_witness :
  let value := js_of_canvas Sample.canvas in
  let text := Fixtures.text_of value in
  Store.type Zoom.positionOptions = session
  /\ Sample.print value = Normal text
  /\ Json.parse text = Normal value
  /\ is_object value = true
  /\ Created.createPersistentStore (H := Json.platform)
       (js_of_canvas Zoom.defaultCanvasPosition) Zoom.positionOptions
       (Store.persist (H := Json.platform) Zoom.positionOptions value
          Sample.emptyBrowser)
     = Normal (value,
               Store.persist (H := Json.platform) Zoom.positionOptions value
                 (Store.persist (H := Json.platform) Zoom.positionOptions value
                    Sample.emptyBrowser)).
Proof.
  split; [reflexivity |]. split; [vm_compute; reflexivity |].
  split; [vm_compute; reflexivity |]. split; [reflexivity |].
  apply (session_store_reloads (H := Json.platform)
           (js_of_canvas Zoom.defaultCanvasPosition) (js_of_canvas Sample.canvas)
           (js_of_canvas Sample.canvas)
           (Fixtures.text_of (js_of_canvas Sample.canvas)) Zoom.positionOptions
           Sample.emptyBrowser).
  - reflexivity.
  - vm_compute. reflexivity.
  - vm_compute. reflexivity.
  - reflexivity.
Defined.

Lemma local_store_forgets_witness :
  let default := js_of_canvas Zoom.defaultCanvasPosition in
  let written :=
    Store.persist (H := Sample.platform) Sample.localOptions
      (js_of_canvas Sample.canvas) Sample.emptyBrowser in
  Store.type Sample.localOptions = local
  /\ Created.createPersistentStore (H := Sample.platform) default Sample.localOptions
       written
     = match
         Created.createPersistentStore (H := Sample.platform) default
           Sample.localOptions Sample.emptyBrowser
       with
       | Normal (initialValue, _) =>
           Normal (initialValue,
                   Store.persist (H := Sample.platform) Sample.localOptions
                     initialValue written)
       | Thrown => Thrown
       end.
Proof.
  split; [reflexivity |].
  apply (local_store_forgets (H := Sample.platform)
           (js_of_canvas Zoom.defaultCanvasPosition) (js_of_canvas Sample.canvas)
           Sample.localOptions Sample.emptyBrowser).
  reflexivity.
Defined.

End CreatedExamples.
